(** * ComES backend: quiz scoring and competition-team membership

    A shallow embedding of the two controllers that carry the business
    logic of the backend:

    - [src/controllers/quiz.controller.ts] (with the quiz and quiz-attempt
      models and the express-validator rules of the quiz routes);
    - [src/controllers/competitionTeam.controller.ts] (with the
      competition-team model).

    Conventions of the embedding.

    - JavaScript numbers are modelled by exact rationals ([Q]); equalities
      between numbers are stated with [==] ([Qeq]).  Rounding errors of
      IEEE doubles are outside the model.
    - Mongo [ObjectId]s are modelled by their [toString()] image, a
      [string]; the controllers compare ids only through [toString()].
    - A controller is a computation in a small state-and-exception monad
      over the collection it writes: [throw] models [throw new AppError],
      and the state is what [create] / [save] leave in the collection.
    - [Date] values are integers (milliseconds); [new Date()] is the
      [now] argument of the controllers that call it. *)

From Stdlib Require Import ZArith QArith Qround Qminmax Lia Lqa.
From stdpp Require Import base strings list gmap.
From Stdlib Require Import Ascii.

(* ================================================================== *)
(** ** Errors and the controller monad *)
(* ================================================================== *)

(** [utils/errors.ts]: [AppError(message, statusCode)]. *)
Record AppError := mkAppError { message : string; statusCode : Z }.

(** [NotFoundError(resource)] is [AppError(`${resource} not found`, 404)]. *)
Definition NotFoundError (resource : string) : AppError :=
  mkAppError (resource +:+ " not found") 404.

Inductive result (A : Type) : Type :=
| Ok (a : A)
| Throw (e : AppError).
Arguments Ok {A} a.
Arguments Throw {A} e.

(** A handler run against a collection state [S]. *)
Definition Handler (S A : Type) : Type := S -> result A * S.

Definition ret {S A} (a : A) : Handler S A := fun s => (Ok a, s).
Definition throw {S A} (e : AppError) : Handler S A := fun s => (Throw e, s).
Definition bind {S A B} (m : Handler S A) (k : A -> Handler S B) : Handler S B :=
  fun s => match m s with
           | (Ok a, s') => k a s'
           | (Throw e, s') => (Throw e, s')
           end.
Definition get {S} : Handler S S := fun s => (Ok s, s).

Declare Scope handler_scope.
Delimit Scope handler_scope with handler.
Notation "x <- m ;; k" := (bind m (fun x => k))
  (at level 100, m at next level, right associativity) : handler_scope.

(** [xs.map(f)] where [f] may throw: the first exception aborts the map. *)
Fixpoint mapThrow {A B} (f : A -> result B) (xs : list A) : result (list B) :=
  match xs with
  | [] => Ok []
  | x :: xs' =>
      match f x with
      | Throw e => Throw e
      | Ok y => match mapThrow f xs' with
                | Throw e => Throw e
                | Ok ys => Ok (y :: ys)
                end
      end
  end.

Definition failed {A} (r : result A) : bool :=
  match r with Ok _ => false | Throw _ => true end.

(* ================================================================== *)
(** ** Numbers *)
(* ================================================================== *)

Open Scope Q_scope.

(** [Math.round]: nearest integer, ties towards plus infinity. *)
Definition Math_round (x : Q) : Z := Qfloor (x + (1 # 2)).

(** [Math.max] on two numbers. *)
Definition Math_max (x y : Q) : Q := Qmax x y.

(** The idiom [Math.round(x * 100) / 100] of the quiz controller. *)
Definition round2 (x : Q) : Q := inject_Z (Math_round (x * 100)) / 100.

(** [xs.reduce((sum, x) => sum + x, 0)]. *)
Definition sumQ (xs : list Q) : Q := fold_left Qplus xs 0.

(** A number that has at most two decimal places. *)
Definition two_decimals (x : Q) : Prop := exists k : Z, x == inject_Z k / 100.

(** A number that is an integer ([isInt] of the validators). *)
Definition is_int (x : Q) : Prop := exists k : Z, x == inject_Z k.

(* ================================================================== *)
(** ** Quiz domain ([models/quiz.model.ts], [models/quizAttempt.model.ts]) *)
(* ================================================================== *)

Record Answer := mkAnswer {
  a_text : string;
  a_isCorrect : bool
}.

Record Question := mkQuestion {
  q_id : string;
  q_questionText : string;
  q_answers : list Answer;
  q_timeLimitSeconds : Q;
  q_marks : Q
}.

(** A quiz document without its [_id]: the collection below is keyed by
    it. *)
Record Quiz := mkQuiz {
  quiz_title : string;
  quiz_description : string;
  quiz_questions : list Question;
  quiz_isVisible : bool
}.

(** One element of [req.body.responses]. *)
Record ResponseInput := mkResponseInput {
  ri_questionId : string;
  ri_selectedAnswerIndex : Z;
  ri_responseTimeSeconds : Q
}.

Record QuestionResponse := mkQuestionResponse {
  qr_questionId : string;
  qr_selectedAnswerIndex : Z;
  qr_responseTimeSeconds : Q;
  qr_isCorrect : bool;
  qr_marksAwarded : Q
}.

Record QuizAttempt := mkQuizAttempt {
  at_quizId : string;
  at_participantName : string;
  at_responses : list QuestionResponse;
  at_totalMarks : Q;
  at_maxMarks : Q;
  at_percentage : Q;
  at_completedAt : Z
}.

(** What the question schema and [quizValidations.create] / [.update]
    accept: exactly four answers, one of them correct, an integer time
    limit between 5 and 300 and an integer number of marks, at least 1. *)
Definition valid_question (q : Question) : Prop :=
  length (q_answers q) = 4%nat /\
  existsb a_isCorrect (q_answers q) = true /\
  is_int (q_timeLimitSeconds q) /\
  5 <= q_timeLimitSeconds q /\ q_timeLimitSeconds q <= 300 /\
  is_int (q_marks q) /\ 1 <= q_marks q.

(** The two collections the quiz controller touches.  [quizzes] maps the
    [_id] of a quiz to its document and is only read by the handlers
    below; [QuizAttempt.create] appends to [attempts]. *)
Record QuizDb := mkQuizDb {
  quizzes : gmap string Quiz;
  attempts : list QuizAttempt
}.

(** [Quiz.findById(id)]. *)
Definition Quiz_findById (id : string) (db : QuizDb) : option Quiz :=
  quizzes db !! id.

(** [QuizAttempt.create(doc)]. *)
Definition QuizAttempt_create (a : QuizAttempt) : Handler QuizDb QuizAttempt :=
  fun db => (Ok a, mkQuizDb (quizzes db) (attempts db ++ [a])).

(** [new Map(quiz.questions.map((q) => [q._id.toString(), q]))]: entries
    are inserted in order, a later entry replaces an earlier one with the
    same key. *)
Definition questionMap_of (qs : list Question) : gmap string Question :=
  fold_left (fun m q => <[q_id q := q]> m) qs ∅.

(** [question.answers[selectedIndex]?.isCorrect || false]. *)
Definition answerIsCorrect (q : Question) (selectedIndex : Z) : bool :=
  if (selectedIndex <? 0)%Z then false
  else match q_answers q !! Z.to_nat selectedIndex with
       | Some a => a_isCorrect a
       | None => false
       end.

(** The marks of a correct answer (lines 245-253 of the controller). *)
Definition correctMarks (q : Question) (responseTime : Q) : Q :=
  let timeLimit := q_timeLimitSeconds q in
  let timeFraction := Math_max 0 ((timeLimit - responseTime) / timeLimit) in
  let marksAwarded := Math_max (q_marks q * (1 # 10)) (q_marks q * timeFraction) in
  round2 marksAwarded.

(** The callback of [responses.map] in [submitQuizAttempt]. *)
Definition scoreResponse (questionMap : gmap string Question)
    (response : ResponseInput) : result QuestionResponse :=
  match questionMap !! ri_questionId response with
  | None =>
      Throw (mkAppError
               ("Question " +:+ ri_questionId response +:+ " not found in this quiz")
               400)
  | Some question =>
      let selectedIndex := ri_selectedAnswerIndex response in
      let responseTime := ri_responseTimeSeconds response in
      let isCorrect := answerIsCorrect question selectedIndex in
      let marksAwarded :=
        if isCorrect then correctMarks question responseTime else 0 in
      Ok (mkQuestionResponse (ri_questionId response) selectedIndex
            responseTime isCorrect marksAwarded)
  end.

(** [submitQuizAttempt].  [responses] is [None] when [req.body.responses]
    is missing or not an array. *)
Definition submitQuizAttempt (id : string) (participantName : string)
    (responses : option (list ResponseInput)) (now : Z)
    : Handler QuizDb QuizAttempt :=
  (db <- get ;;
   match Quiz_findById id db with
   | None => throw (NotFoundError "Quiz")
   | Some quiz =>
       if negb (quiz_isVisible quiz)
       then throw (mkAppError "This quiz is not available" 403)
       else
         match responses with
         | None => throw (mkAppError "Responses are required" 400)
         | Some responses =>
             let questionMap := questionMap_of (quiz_questions quiz) in
             match mapThrow (scoreResponse questionMap) responses with
             | Throw e => throw e
             | Ok scoredResponses =>
                 let totalMarks := sumQ (map qr_marksAwarded scoredResponses) in
                 let maxMarks := sumQ (map q_marks (quiz_questions quiz)) in
                 let percentage :=
                   if Qlt_le_dec 0 maxMarks
                   then inject_Z (Math_round (totalMarks / maxMarks * 10000)) / 100
                   else 0 in
                 QuizAttempt_create
                   (mkQuizAttempt id participantName scoredResponses
                      (round2 totalMarks) maxMarks percentage now)
             end
         end
   end)%handler.

(** *** Read endpoints of the quiz controller *)

(** [getQuizById]: the stored document is sent as it is. *)
Definition getQuizById (id : string) : Handler QuizDb Quiz :=
  (db <- get ;;
   match Quiz_findById id db with
   | None => throw (NotFoundError "Quiz")
   | Some quiz => ret quiz
   end)%handler.

(** The shape of a quiz after the projection
    [.select('-questions.answers.isCorrect')] of [getAllQuizzes]. *)
Record ListedAnswer := mkListedAnswer {
  la_text : string
}.

Record ListedQuestion := mkListedQuestion {
  lq_id : string;
  lq_questionText : string;
  lq_answers : list ListedAnswer;
  lq_timeLimitSeconds : Q;
  lq_marks : Q
}.

Record ListedQuiz := mkListedQuiz {
  l_id : string;
  l_title : string;
  l_description : string;
  l_questions : list ListedQuestion;
  l_isVisible : bool
}.

Definition select_without_isCorrect (doc : string * Quiz) : ListedQuiz :=
  let (id, quiz) := doc in
  mkListedQuiz id (quiz_title quiz) (quiz_description quiz)
    (map (fun q =>
            mkListedQuestion (q_id q) (q_questionText q)
              (map (fun a => mkListedAnswer (a_text a)) (q_answers q))
              (q_timeLimitSeconds q) (q_marks q))
         (quiz_questions quiz))
    (quiz_isVisible quiz).

(** The [quizzes] array sent by [getAllQuizzes], given the documents that
    the query (filter, skip, limit, sort) selects from the collection. *)
Definition getAllQuizzes_quizzes (selected : list (string * Quiz)) : list ListedQuiz :=
  map select_without_isCorrect selected.

(** Two quiz documents that differ at most in the [isCorrect] flags of
    their answers. *)
Definition same_answer_text (a b : Answer) : Prop := a_text a = a_text b.

Definition same_question_but_flags (p q : Question) : Prop :=
  q_id p = q_id q /\ q_questionText p = q_questionText q /\
  Forall2 same_answer_text (q_answers p) (q_answers q) /\
  q_timeLimitSeconds p = q_timeLimitSeconds q /\ q_marks p = q_marks q.

Definition same_quiz_but_flags (x y : Quiz) : Prop :=
  quiz_title x = quiz_title y /\ quiz_description x = quiz_description y /\
  Forall2 same_question_but_flags (quiz_questions x) (quiz_questions y) /\
  quiz_isVisible x = quiz_isVisible y.

(* ================================================================== *)
(** ** Competition teams ([models/competitionTeam.model.ts]) *)
(* ================================================================== *)

Module TeamStatus.
Inductive t := pending | active | disbanded.
#[global] Instance status_eq_dec : EqDecision t := ltac:(solve_decision).
End TeamStatus.

Module TeamMemberStatus.
Inductive t := pending | approved | rejected.
#[global] Instance member_status_eq_dec : EqDecision t := ltac:(solve_decision).
End TeamMemberStatus.

Record CompetitionTeamMember := mkMember {
  m_studentId : string;
  m_name : string;
  m_email : string;
  m_registrationNo : string;
  m_status : TeamMemberStatus.t;
  m_joinedAt : option Z
}.

(** A team document without its [_id]: the collection is keyed by it. *)
Record CompetitionTeam := mkTeam {
  t_name : string;
  t_leaderId : string;
  t_leaderName : string;
  t_leaderEmail : string;
  t_members : list CompetitionTeamMember;
  t_status : TeamStatus.t
}.

(** The fields of a student document that the team controller reads; the
    student collection is keyed by [_id]. *)
Record Student := mkStudent {
  s_name : string;
  s_email : string;
  s_registrationNo : string
}.

(** [Student.findById(id)], for a well-formed id. *)
Definition Student_findById (students : gmap string Student) (id : string)
    : option Student := students !! id.

(** [CompetitionTeam.findOne({ name })], as the truth value the controller
    tests. *)
Definition CompetitionTeam_existsName (name : string)
    (teams : gmap string CompetitionTeam) : bool :=
  bool_decide (map_Exists (fun _ team => t_name team = name) teams).

(** [CompetitionTeam.create(doc)]: the document is stored under the fresh
    [_id] drawn for it; the unique index on [_id] refuses an id that is
    already taken (the error middleware reports a duplicate key as 400). *)
Definition CompetitionTeam_create (newId : string) (team : CompetitionTeam)
    : Handler (gmap string CompetitionTeam) CompetitionTeam :=
  fun teams =>
    match teams !! newId with
    | None => (Ok team, <[newId := team]> teams)
    | Some _ => (Throw (mkAppError "Duplicate field value" 400), teams)
    end.

(** [team.save()] of a document loaded under [teamId]. *)
Definition CompetitionTeam_save (teamId : string) (team : CompetitionTeam)
    : Handler (gmap string CompetitionTeam) unit :=
  fun teams => (Ok tt, <[teamId := team]> teams).

Definition with_members (team : CompetitionTeam)
    (members : list CompetitionTeamMember) : CompetitionTeam :=
  mkTeam (t_name team) (t_leaderId team) (t_leaderName team)
    (t_leaderEmail team) members (t_status team).

Definition with_status (team : CompetitionTeam) (status : TeamStatus.t)
    : CompetitionTeam :=
  mkTeam (t_name team) (t_leaderId team) (t_leaderName team)
    (t_leaderEmail team) (t_members team) status.

Definition member_with_status (status : TeamMemberStatus.t)
    (m : CompetitionTeamMember) : CompetitionTeamMember :=
  mkMember (m_studentId m) (m_name m) (m_email m) (m_registrationNo m)
    status (m_joinedAt m).

Definition member_with_joinedAt (joinedAt : Z)
    (m : CompetitionTeamMember) : CompetitionTeamMember :=
  mkMember (m_studentId m) (m_name m) (m_email m) (m_registrationNo m)
    (m_status m) (Some joinedAt).

(** [xs.findIndex(p)], with [None] for -1. *)
Definition findIndex {A} (P : A -> Prop) `{forall x, Decision (P x)}
    (xs : list A) : option nat :=
  fst <$> list_find P xs.

(** [xs.every(p)]. *)
Definition every {A} (p : A -> bool) (xs : list A) : bool := forallb p xs.

(** [createTeam].  [memberIds] is [None] when [req.body.memberIds] is
    absent; [newId] is the [_id] drawn for the new document. *)
Definition createTeam (students : gmap string Student) (newId : string)
    (name : string) (memberIds : option (list string)) (leaderId : string)
    : Handler (gmap string CompetitionTeam) CompetitionTeam :=
  match Student_findById students leaderId with
  | None => throw (mkAppError "Student not found" 404)
  | Some leader =>
      (teams <- get ;;
       if CompetitionTeam_existsName name teams
       then throw (mkAppError "A team with this name already exists" 400)
       else
         let members :=
           map (fun memberId =>
                  match Student_findById students memberId with
                  | None => None
                  | Some student =>
                      Some (mkMember memberId (s_name student) (s_email student)
                              (s_registrationNo student)
                              TeamMemberStatus.pending None)
                  end)
               (default [] memberIds) in
         let validMembers := omap (fun m => m) members in
         CompetitionTeam_create newId
           (mkTeam name leaderId (s_name leader) (s_email leader) validMembers
              (if (0 <? length validMembers)%nat
               then TeamStatus.pending else TeamStatus.active)))%handler
  end.

(** [respondToInvitation].  [status] is [req.body.status]. *)
Definition respondToInvitation (status : string) (studentId teamId : string)
    (now : Z) : Handler (gmap string CompetitionTeam) CompetitionTeam :=
  if negb (bool_decide (status ∈ ["approved"; "rejected"]))
  then throw (mkAppError "Invalid status. Must be approved or rejected" 400)
  else
    (teams <- get ;;
     match teams !! teamId with
     | None => throw (mkAppError "Team not found" 404)
     | Some team =>
         match findIndex (fun m => m_studentId m = studentId) (t_members team) with
         | None => throw (mkAppError "You are not invited to this team" 400)
         | Some memberIndex =>
             let decision :=
               if decide (status = "approved")
               then TeamMemberStatus.approved else TeamMemberStatus.rejected in
             let members1 :=
               alter (member_with_status decision) memberIndex (t_members team) in
             let members2 :=
               if decide (status = "approved")
               then alter (member_with_joinedAt now) memberIndex members1
               else members1 in
             let allResponded :=
               every (fun m => bool_decide (m_status m <> TeamMemberStatus.pending))
                 members2 in
             let allApproved :=
               every (fun m => bool_decide (m_status m = TeamMemberStatus.approved))
                 members2 in
             let team1 := with_members team members2 in
             let team2 :=
               if allResponded && allApproved
               then with_status team1 TeamStatus.active else team1 in
             (_ <- CompetitionTeam_save teamId team2 ;;
              ret team2)
         end
     end)%handler.

(** [leaveTeam]. *)
Definition leaveTeam (studentId teamId : string)
    : Handler (gmap string CompetitionTeam) unit :=
  (teams <- get ;;
   match teams !! teamId with
   | None => throw (mkAppError "Team not found" 404)
   | Some team =>
       if decide (t_leaderId team = studentId)
       then throw (mkAppError
                     "Team leader cannot leave. Disband the team instead." 400)
       else
         CompetitionTeam_save teamId
           (with_members team
              (filter (fun m => m_studentId m <> studentId) (t_members team)))
   end)%handler.

(** [disbandTeam]. *)
Definition disbandTeam (studentId teamId : string)
    : Handler (gmap string CompetitionTeam) unit :=
  (teams <- get ;;
   match teams !! teamId with
   | None => throw (mkAppError "Team not found" 404)
   | Some team =>
       if decide (t_leaderId team <> studentId)
       then throw (mkAppError "Only the team leader can disband the team" 403)
       else CompetitionTeam_save teamId (with_status team TeamStatus.disbanded)
   end)%handler.

(** [removeMember]. *)
Definition removeMember (studentId teamId memberId : string)
    : Handler (gmap string CompetitionTeam) CompetitionTeam :=
  (teams <- get ;;
   match teams !! teamId with
   | None => throw (mkAppError "Team not found" 404)
   | Some team =>
       if decide (t_leaderId team <> studentId)
       then throw (mkAppError "Only the team leader can remove members" 403)
       else
         let team1 :=
           with_members team
             (filter (fun m => m_studentId m <> memberId) (t_members team)) in
         (_ <- CompetitionTeam_save teamId team1 ;;
          ret team1)
   end)%handler.

(** *** Histories of the team collection *)

(** One request to a writing endpoint of the team routes. *)
Inductive Request :=
| ReqCreateTeam (students : gmap string Student) (newId name : string)
    (memberIds : option (list string)) (leaderId : string)
| ReqRespond (status studentId teamId : string) (now : Z)
| ReqLeave (studentId teamId : string)
| ReqDisband (studentId teamId : string)
| ReqRemoveMember (studentId teamId memberId : string).

(** The collection after a request has been served (or refused). *)
Definition serve (r : Request) (teams : gmap string CompetitionTeam)
    : gmap string CompetitionTeam :=
  match r with
  | ReqCreateTeam students newId name memberIds leaderId =>
      snd (createTeam students newId name memberIds leaderId teams)
  | ReqRespond status studentId teamId now =>
      snd (respondToInvitation status studentId teamId now teams)
  | ReqLeave studentId teamId => snd (leaveTeam studentId teamId teams)
  | ReqDisband studentId teamId => snd (disbandTeam studentId teamId teams)
  | ReqRemoveMember studentId teamId memberId =>
      snd (removeMember studentId teamId memberId teams)
  end.

Definition serveAll (rs : list Request) (teams : gmap string CompetitionTeam)
    : gmap string CompetitionTeam :=
  fold_left (fun teams r => serve r teams) rs teams.

(** A [createTeam] request whose invitee ids do not contain the id of the
    requesting leader; any other request. *)
Definition leader_not_invited (r : Request) : Prop :=
  match r with
  | ReqCreateTeam _ _ _ memberIds leaderId => leaderId ∉ default [] memberIds
  | _ => True
  end.

Definition member_ids (team : CompetitionTeam) : list string :=
  map m_studentId (t_members team).

(** The member entries that [createTeam] builds from the invitee ids. *)
Definition invited (students : gmap string Student) (memberIds : list string)
    : list CompetitionTeamMember :=
  omap (fun m => m)
    (map (fun memberId =>
            match Student_findById students memberId with
            | None => None
            | Some student =>
                Some (mkMember memberId (s_name student) (s_email student)
                        (s_registrationNo student) TeamMemberStatus.pending None)
            end) memberIds).

(* ================================================================== *)
(** ** Outcomes of the team requests *)
(* ================================================================== *)

(** The entry of the responding member after the response. *)
Definition responded (status : string) (now : Z) (m : CompetitionTeamMember)
    : CompetitionTeamMember :=
  mkMember (m_studentId m) (m_name m) (m_email m) (m_registrationNo m)
    (if decide (status = "approved")
     then TeamMemberStatus.approved else TeamMemberStatus.rejected)
    (if decide (status = "approved") then Some now else m_joinedAt m).

(** The team after the member at the head of [m :: post] has responded. *)
Definition after_response (status : string) (now : Z) (team : CompetitionTeam)
    (pre : list CompetitionTeamMember) (m : CompetitionTeamMember)
    (post : list CompetitionTeamMember) : CompetitionTeam :=
  let members := pre ++ responded status now m :: post in
  mkTeam (t_name team) (t_leaderId team) (t_leaderName team) (t_leaderEmail team)
    members
    (if every (fun m => bool_decide (m_status m <> TeamMemberStatus.pending)) members
        && every (fun m => bool_decide (m_status m = TeamMemberStatus.approved)) members
     then TeamStatus.active else t_status team).

(** The team after the entries of [studentId] have been filtered out. *)
Definition without_member (studentId : string) (team : CompetitionTeam)
    : CompetitionTeam :=
  with_members team
    (filter (fun m => m_studentId m <> studentId) (t_members team)).

(** [team'] is [team] with the entries of [studentId] taken out of the
    member list and nothing else changed. *)
Definition removed_outright (studentId : string) (team team' : CompetitionTeam)
    : Prop :=
  t_name team' = t_name team /\
  t_leaderId team' = t_leaderId team /\
  t_leaderName team' = t_leaderName team /\
  t_leaderEmail team' = t_leaderEmail team /\
  t_status team' = t_status team /\
  t_members team'
    = filter (fun m => m_studentId m <> studentId) (t_members team) /\
  (studentId ∉ member_ids team') /\
  (forall m, m ∈ t_members team -> m_studentId m <> studentId ->
             m ∈ t_members team') /\
  (forall m, m ∈ t_members team' -> m ∈ t_members team) /\
  (length (t_members team') <= length (t_members team))%nat /\
  (studentId ∈ member_ids team ->
   (length (t_members team') < length (t_members team))%nat).

(** The team that a successful [createTeam] stores. *)
Definition created_team (students : gmap string Student) (name : string)
    (memberIds : option (list string)) (leaderId : string) (leader : Student)
    : CompetitionTeam :=
  let validMembers := invited students (default [] memberIds) in
  mkTeam name leaderId (s_name leader) (s_email leader) validMembers
    (if (0 <? length validMembers)%nat
     then TeamStatus.pending else TeamStatus.active).

(** How request [r] can change the team stored under [teamId]. *)
Definition team_step (r : Request) (teamId : string)
    (team team' : CompetitionTeam) : Prop :=
  team' = team \/
  match r with
  | ReqCreateTeam _ _ _ _ _ => False
  | ReqRespond status _ tid now =>
      tid = teamId /\
      exists pre m post,
        t_members team = pre ++ m :: post /\
        team' = after_response status now team pre m post
  | ReqLeave studentId tid =>
      tid = teamId /\ team' = without_member studentId team
  | ReqDisband _ tid =>
      tid = teamId /\ team' = with_status team TeamStatus.disbanded
  | ReqRemoveMember _ tid memberId =>
      tid = teamId /\ team' = without_member memberId team
  end.

(* ================================================================== *)
(** ** Sample data *)
(* ================================================================== *)

(** The question of the worked example: 10 marks, 20 seconds, first
    answer correct. *)
Definition demo_question : Question :=
  mkQuestion "q1" "2 + 2 = ?"
    [mkAnswer "4" true; mkAnswer "3" false; mkAnswer "5" false; mkAnswer "22" false]
    20 10.

Definition demo_quiz : Quiz := mkQuiz "Arithmetic" "Sums" [demo_question] true.

Definition demo_hidden_quiz : Quiz := mkQuiz "Arithmetic" "Sums" [demo_question] false.

(** [demo_quiz] with other correctness flags. *)
Definition demo_quiz_reflagged : Quiz :=
  mkQuiz "Arithmetic" "Sums"
    [mkQuestion "q1" "2 + 2 = ?"
       [mkAnswer "4" false; mkAnswer "3" true; mkAnswer "5" false; mkAnswer "22" false]
       20 10]
    true.

Definition demo_quiz_db : QuizDb :=
  mkQuizDb (<["z1" := demo_quiz]> {["z2" := demo_hidden_quiz]}) [].

Definition demo_students : gmap string Student :=
  <["L" := mkStudent "Lea" "lea@example.org" "EG/2020/0001"]>
    {["a" := mkStudent "Ali" "ali@example.org" "EG/2020/0002"]}.

(** A team led by L whose only invitee, a, has not answered. *)
Definition demo_history : list Request :=
  [ReqCreateTeam demo_students "t1" "Compilers" (Some ["a"; "ghost"]) "L"].

Definition demo_disbanded_history : list Request :=
  demo_history ++ [ReqDisband "L" "t1"].

(* ================================================================== *)
(** ** The other handlers of the quiz controller *)
(* ================================================================== *)

(** The [totalMarks] virtual of the quiz schema. *)
Definition Quiz_totalMarks (quiz : Quiz) : Q :=
  if (length (quiz_questions quiz) =? 0)%nat then 0
  else sumQ (map q_marks (quiz_questions quiz)).

(** [quiz.save()] of a document loaded under [id]. *)
Definition Quiz_save (id : string) (quiz : Quiz) : Handler QuizDb unit :=
  fun db => (Ok tt, mkQuizDb (<[id := quiz]> (quizzes db)) (attempts db)).

(** [Quiz.findByIdAndDelete(id)]: the deleted document, if there was one. *)
Definition Quiz_findByIdAndDelete (id : string) : Handler QuizDb (option Quiz) :=
  fun db => (Ok (quizzes db !! id),
             mkQuizDb (delete id (quizzes db)) (attempts db)).

(** [QuizAttempt.deleteMany({ quizId })]. *)
Definition QuizAttempt_deleteMany (quizId : string) : Handler QuizDb unit :=
  fun db => (Ok tt,
             mkQuizDb (quizzes db)
               (filter (fun a => at_quizId a <> quizId) (attempts db))).

Definition with_isVisible (quiz : Quiz) (isVisible : bool) : Quiz :=
  mkQuiz (quiz_title quiz) (quiz_description quiz) (quiz_questions quiz) isVisible.

(** [toggleVisibility].  [isVisible] is [req.body.isVisible], [None] when
    it is undefined.  The result is the message and the quiz sent. *)
Definition toggleVisibility (id : string) (isVisible : option bool)
    : Handler QuizDb (string * Quiz) :=
  (db <- get ;;
   match Quiz_findById id db with
   | None => throw (NotFoundError "Quiz")
   | Some quiz =>
       let quiz1 :=
         match isVisible with
         | Some b => with_isVisible quiz b
         | None => with_isVisible quiz (negb (quiz_isVisible quiz))
         end in
       (_ <- Quiz_save id quiz1 ;;
        ret ("Quiz is now " +:+
               (if quiz_isVisible quiz1 then "visible" else "hidden"),
             quiz1))
   end)%handler.

(** [deleteQuiz]. *)
Definition deleteQuiz (id : string) : Handler QuizDb unit :=
  (quiz <- Quiz_findByIdAndDelete id ;;
   match quiz with
   | None => throw (NotFoundError "Quiz")
   | Some _ => QuizAttempt_deleteMany id
   end)%handler.

(** *** Pagination *)

Record Pagination := mkPagination {
  pg_page : Z;
  pg_limit : Z;
  pg_total : Z;
  pg_pages : Z
}.

(** [parseInt(s) || d], given what [parseInt(s)] is ([None] for [NaN]):
    [NaN] and 0 are falsy. *)
Definition parsedOr (parsed : option Z) (d : Z) : Z :=
  match parsed with
  | Some n => if (n =? 0)%Z then d else n
  | None => d
  end.

(** [Math.ceil]. *)
Definition Math_ceil (x : Q) : Z := Qceiling x.

(** [Math.ceil(total / limit)]. *)
Definition pagesOf (total limit : Z) : Z :=
  Math_ceil (inject_Z total / inject_Z limit).

(** The documents that [.skip(skip).limit(limit)] keeps of a sorted
    result, for [skip >= 0] and [limit >= 1]. *)
Definition skip_limit {A} (skip limit : Z) (docs : list A) : list A :=
  take (Z.to_nat limit) (drop (Z.to_nat skip) docs).

(** [s.replace(c, '')] for a one-character pattern: the first occurrence
    is removed. *)
Fixpoint removeFirst (c : ascii) (s : string) : string :=
  match s with
  | EmptyString => EmptyString
  | String a s' => if Ascii.eqb a c then s' else String a (removeFirst c s')
  end.

(** [s.startsWith(c)] for a one-character prefix. *)
Definition startsWith (c : ascii) (s : string) : bool :=
  match s with
  | EmptyString => false
  | String a _ => Ascii.eqb a c
  end.

(** The [sort] object of [getAllQuizzes], as a field and an order, from
    [req.query.sort]. *)
Definition sortSpec (sort : option string) : string * Z :=
  match sort with
  | None => ("createdAt", (-1)%Z)
  | Some s =>
      if decide (s = EmptyString) then ("createdAt", (-1)%Z)
      else (removeFirst "-"%char s,
            if startsWith "-"%char s then (-1)%Z else 1%Z)
  end.

(** The query string of the listing endpoints; [qy_page] and [qy_limit]
    are what [parseInt] makes of the parameters. *)
Record ListQuery := mkListQuery {
  qy_page : option Z;
  qy_limit : option Z;
  qy_includeHidden : option string;
  qy_search : option string;
  qy_sort : option string
}.

Section Database.

(** What the database does with the parts of a query that the
    controllers only pass on: whether a quiz matches the [$or] of the two
    case-insensitive [$regex] clauses built from a search string, and the
    order in which [.sort] returns documents. *)
Variable searchMatches : string -> Quiz -> bool.
Variable sortQuizzes : string -> Z -> list (string * Quiz) -> list (string * Quiz).
Variable sortAttempts : string -> Z -> list QuizAttempt -> list QuizAttempt.

(** The [filter] object of [getAllQuizzes], as a test on documents. *)
Definition listFilter (query : ListQuery) (doc : string * Quiz) : bool :=
  (if decide (qy_includeHidden query = Some "true")
   then true else quiz_isVisible (snd doc))
  && match qy_search query with
     | None => true
     | Some s => if decide (s = EmptyString) then true
                 else searchMatches s (snd doc)
     end.

(** [getAllQuizzes]: the [quizzes] array and the [pagination] object, for
    a page and a limit of at least 1 (the database refuses a negative
    skip). *)
Definition getAllQuizzes (query : ListQuery)
    : Handler QuizDb (list ListedQuiz * Pagination) :=
  (db <- get ;;
   let page := parsedOr (qy_page query) 1 in
   let limit := parsedOr (qy_limit query) 10 in
   let skip := ((page - 1) * limit)%Z in
   let matching := List.filter (listFilter query) (map_to_list (quizzes db)) in
   let (sortField, sortOrder) := sortSpec (qy_sort query) in
   let quizzes :=
     getAllQuizzes_quizzes
       (skip_limit skip limit (sortQuizzes sortField sortOrder matching)) in
   let total := Z.of_nat (length matching) in
   ret (quizzes, mkPagination page limit total (pagesOf total limit)))%handler.

(** [getQuizAttempts], for a page and a limit of at least 1.  [sort] is
    [req.query.sort]. *)
Definition getQuizAttempts (id : string) (page limit : option Z)
    (sort : option string) : Handler QuizDb (list QuizAttempt * Pagination) :=
  (db <- get ;;
   match Quiz_findById id db with
   | None => throw (NotFoundError "Quiz")
   | Some _ =>
       let page := parsedOr page 1 in
       let limit := parsedOr limit 10 in
       let skip := ((page - 1) * limit)%Z in
       let sortField :=
         if decide (sort = Some "recent") then "completedAt" else "totalMarks" in
       let matching :=
         List.filter (fun a => bool_decide (at_quizId a = id)) (attempts db) in
       let total := Z.of_nat (length matching) in
       ret (skip_limit skip limit (sortAttempts sortField (-1) matching),
            mkPagination page limit total (pagesOf total limit))
   end)%handler.

End Database.

(** All the pages of a listing, from page 1 to page [pages]. *)
Fixpoint allPages {A} (limit : Z) (pages : nat) (docs : list A) : list A :=
  match pages with
  | O => []
  | S n => allPages limit n docs
           ++ skip_limit ((Z.of_nat (S n) - 1) * limit) limit docs
  end.

(* ================================================================== *)
(** ** The other handlers of the team controller *)
(* ================================================================== *)

(** [getTeamById]. *)
Definition getTeamById (teamId : string)
    : Handler (gmap string CompetitionTeam) CompetitionTeam :=
  (teams <- get ;;
   match teams !! teamId with
   | None => throw (mkAppError "Team not found" 404)
   | Some team => ret team
   end)%handler.

(** No two teams of the collection have the same name. *)
Definition names_unique (teams : gmap string CompetitionTeam) : Prop :=
  forall i j ti tj,
    teams !! i = Some ti -> teams !! j = Some tj ->
    t_name ti = t_name tj -> i = j.

(** Every approved member of the team has a [joinedAt] date. *)
Definition approved_have_joined (team : CompetitionTeam) : Prop :=
  Forall (fun m => m_status m = TeamMemberStatus.approved ->
                   is_Some (m_joinedAt m))
    (t_members team).

(* ================================================================== *)
(** ** The error middleware ([middleware/error.middleware.ts]) *)
(* ================================================================== *)

(** An instance of the class [AppError] of [utils/errors.ts] as the
    middleware reads it: [errors] is present on instances of the subclass
    [ValidationError] only.  (The [status] and [stack] fields are not
    modelled; no response carries [status].) *)
Record AppErrorObject := mkAppErrorObject {
  ao_message : string;
  ao_statusCode : Z;
  ao_isOperational : bool;
  ao_code : option string;
  ao_errors : option (gmap string string)
}.

(** [new AppError(message, statusCode, code)]. *)
Definition new_AppError (message : string) (statusCode : Z) (code : option string)
    : AppErrorObject :=
  mkAppErrorObject message statusCode true code None.

(** [new ValidationError(message, errors)]. *)
Definition new_ValidationError (message : string) (errors : gmap string string)
    : AppErrorObject :=
  mkAppErrorObject message 400 true (Some "VALIDATION_ERROR") (Some errors).

(** What reaches [errorHandler]: an instance of [AppError] (whose [name]
    is the inherited ["Error"] and whose [code] is not a number), or any
    other error, of which the middleware reads [name], [message], whether
    [code === 11000], the [path] and [value] it interpolates for a
    [CastError], the first quoted value of [errmsg] if there is one, and
    the [(path, message)] pairs of [Object.values(err.errors)]. *)
Inductive Thrown :=
| ThrownAppError (e : AppErrorObject)
| ThrownOther (name message : string) (code11000 : bool)
    (path value : string) (quoted : option string)
    (errors : list (string * string)).

Definition handleCastErrorDB (path value : string) : AppErrorObject :=
  new_AppError ("Invalid " +:+ path +:+ ": " +:+ value) 400 (Some "INVALID_ID").

Definition handleDuplicateFieldsDB (quoted : option string) : AppErrorObject :=
  let value := match quoted with
               | Some v => if decide (v = EmptyString) then "unknown" else v
               | None => "unknown"
               end in
  new_AppError ("Duplicate field value: " +:+ value +:+ ". Please use another value.")
    400 (Some "DUPLICATE_FIELD").

Definition handleValidationErrorDB (errors : list (string * string))
    : AppErrorObject :=
  new_ValidationError "Validation failed"
    (fold_left (fun acc el => <[fst el := snd el]> acc) errors ∅).

Definition handleJWTError : AppErrorObject :=
  new_AppError "Invalid token. Please log in again." 401 (Some "INVALID_TOKEN").

Definition handleJWTExpiredError : AppErrorObject :=
  new_AppError "Your token has expired. Please log in again." 401
    (Some "TOKEN_EXPIRED").

(** The response: the status and the fields of the JSON body ([success]
    is always [false]); [er_stack] tells whether the body has a [stack]. *)
Record ErrorResponse := mkErrorResponse {
  er_status : Z;
  er_message : string;
  er_code : option string;
  er_stack : bool;
  er_errors : option (gmap string string)
}.

Definition sendErrorDev (err : AppErrorObject) : ErrorResponse :=
  mkErrorResponse (ao_statusCode err) (ao_message err) (ao_code err) true
    (ao_errors err).

Definition sendErrorProd (err : AppErrorObject) : ErrorResponse :=
  if ao_isOperational err
  then mkErrorResponse (ao_statusCode err) (ao_message err) (ao_code err) false
         (ao_errors err)
  else mkErrorResponse 500 "Something went wrong. Please try again later."
         (Some "INTERNAL_ERROR") false None.

(** The [error] that [errorHandler] hands to [sendErrorDev] or
    [sendErrorProd]. *)
Definition errorHandler_error (err : Thrown) : AppErrorObject :=
  match err with
  | ThrownAppError e => e
  | ThrownOther name message code11000 path value quoted errors =>
      let error0 :=
        new_AppError
          (if decide (message = EmptyString) then "Internal Server Error"
           else message) 500 None in
      let error1 :=
        if decide (name = "CastError") then handleCastErrorDB path value
        else error0 in
      let error2 :=
        if code11000 then handleDuplicateFieldsDB quoted else error1 in
      let error3 :=
        if decide (name = "ValidationError") then handleValidationErrorDB errors
        else error2 in
      let error4 :=
        if decide (name = "JsonWebTokenError") then handleJWTError else error3 in
      if decide (name = "TokenExpiredError") then handleJWTExpiredError
      else error4
  end.

(** [errorHandler]; [development] is [process.env.NODE_ENV === 'development']. *)
Definition errorHandler (development : bool) (err : Thrown) : ErrorResponse :=
  if development then sendErrorDev (errorHandler_error err)
  else sendErrorProd (errorHandler_error err).

(** The instances that the constructors of [utils/errors.ts] build. *)
Definition constructed (err : Thrown) : Prop :=
  match err with
  | ThrownAppError e => ao_isOperational e = true
  | ThrownOther _ _ _ _ _ _ _ => True
  end.

(** A second quiz with two questions, and submissions to it. *)
Definition demo_question2 : Question :=
  mkQuestion "q2" "3 * 3 = ?"
    [mkAnswer "6" false; mkAnswer "9" true; mkAnswer "12" false; mkAnswer "33" false]
    30 5.

Definition demo_quiz2 : Quiz :=
  mkQuiz "Arithmetic II" "Sums and products" [demo_question; demo_question2] true.

Definition demo_quiz_db2 : QuizDb :=
  mkQuizDb (<["z1" := demo_quiz]> (<["z2" := demo_hidden_quiz]> {["z3" := demo_quiz2]}))
    [mkQuizAttempt "z3" "Avi" [] 0 15 0 1700000000000;
     mkQuizAttempt "z1" "Bo" [] 0 10 0 1700000000001].

Definition demo_responses2 : list ResponseInput :=
  [mkResponseInput "q2" 1 0; mkResponseInput "q1" 0 0].

(** A sample database engine for the listings: insertion sort, quizzes
    by title and attempts by the requested field, both descending, and a
    search that matches a quiz by its exact title. *)
Fixpoint insertBy {A} (le : A -> A -> bool) (x : A) (l : list A) : list A :=
  match l with
  | [] => [x]
  | y :: l' => if le x y then x :: l else y :: insertBy le x l'
  end.

Definition sortBy {A} (le : A -> A -> bool) (l : list A) : list A :=
  foldr (insertBy le) [] l.

Definition demo_sortQuizzes (field : string) (order : Z)
    : list (string * Quiz) -> list (string * Quiz) :=
  sortBy (fun x y => String.leb (quiz_title (snd y)) (quiz_title (snd x))).

Definition demo_sortAttempts (field : string) (order : Z)
    : list QuizAttempt -> list QuizAttempt :=
  sortBy (fun a b =>
            if decide (field = "completedAt")
            then (at_completedAt b <=? at_completedAt a)%Z
            else Qle_bool (at_totalMarks b) (at_totalMarks a)).

Definition demo_searchMatches (search : string) (quiz : Quiz) : bool :=
  String.eqb search (quiz_title quiz).

Definition demo_query : ListQuery :=
  mkListQuery (Some 1%Z) (Some 2%Z) None None (Some "-title").

(** The team of [demo_history] after a has approved. *)
Definition demo_joined_history : list Request :=
  demo_history ++ [ReqRespond "approved" "a" "t1" 1700000000000].

(* ================================================================== *)
(** ** Rounding and sums *)
(* ================================================================== *)

Section Rounding.

Lemma Math_round_comp (x y : Q) : x == y -> Math_round x = Math_round y.
Proof.
  intros E. unfold Math_round. apply Qfloor_comp. rewrite E. reflexivity.
Qed.

Lemma Math_round_inject_Z (k : Z) : Math_round (inject_Z k) = k.
Proof.
  unfold Math_round.
  assert (L : (k <= Qfloor (inject_Z k + (1 # 2)))%Z).
  { rewrite <- (Qfloor_Z k) at 1. apply Qfloor_resp_le.
    rewrite <- (Qplus_0_r (inject_Z k)) at 1.
    apply Qplus_le_r. discriminate. }
  assert (U : (Qfloor (inject_Z k + (1 # 2)) < k + 1)%Z).
  { rewrite Zlt_Qlt.
    eapply Qle_lt_trans; [apply Qfloor_le|].
    rewrite inject_Z_plus. apply Qplus_lt_r. reflexivity. }
  lia.
Qed.

Lemma round2_comp (x y : Q) : x == y -> round2 x == round2 y.
Proof.
  intros E. unfold round2.
  rewrite (Math_round_comp (x * 100) (y * 100)); [reflexivity|].
  rewrite E. reflexivity.
Qed.

Lemma round2_two_decimals (x : Q) : two_decimals (round2 x).
Proof. exists (Math_round (x * 100)). reflexivity. Qed.

(** A value that already has two decimal places is left alone. *)
Lemma round2_id (x : Q) : two_decimals x -> round2 x == x.
Proof.
  intros [k E]. unfold round2.
  rewrite (Math_round_comp (x * 100) (inject_Z k)).
  - rewrite Math_round_inject_Z. symmetry. exact E.
  - rewrite E. field.
Qed.


Lemma two_decimals_0 : two_decimals 0.
Proof. exists 0%Z. reflexivity. Qed.

Lemma two_decimals_plus (x y : Q) :
  two_decimals x -> two_decimals y -> two_decimals (x + y).
Proof.
  intros [a Ea] [b Eb]. exists (a + b)%Z.
  rewrite Ea, Eb, inject_Z_plus. field.
Qed.

Lemma two_decimals_comp (x y : Q) : x == y -> two_decimals x -> two_decimals y.
Proof. intros E [k Ek]. exists k. rewrite <- E. exact Ek. Qed.

Lemma is_int_two_decimals (x : Q) : is_int x -> two_decimals x.
Proof.
  intros [k E]. exists (k * 100)%Z. rewrite E, inject_Z_mult. field.
Qed.

Lemma is_int_tenth_two_decimals (x : Q) : is_int x -> two_decimals (x * (1 # 10)).
Proof.
  intros [k E]. exists (k * 10)%Z. rewrite E, inject_Z_mult. field.
Qed.

Lemma fold_left_Qplus_acc (xs : list Q) (a : Q) :
  fold_left Qplus xs a == a + sumQ xs.
Proof.
  unfold sumQ. revert a.
  induction xs as [|x xs IH]; intros a; simpl.
  - ring.
  - rewrite (IH (a + x)), (IH (0 + x)). ring.
Qed.

Lemma sumQ_cons (x : Q) (xs : list Q) : sumQ (x :: xs) == x + sumQ xs.
Proof.
  unfold sumQ at 1. simpl. rewrite fold_left_Qplus_acc. ring.
Qed.

Lemma sumQ_two_decimals (xs : list Q) :
  Forall two_decimals xs -> two_decimals (sumQ xs).
Proof.
  induction 1 as [|x xs Hx _ IH].
  - exact two_decimals_0.
  - eapply two_decimals_comp; [symmetry; apply sumQ_cons|].
    now apply two_decimals_plus.
Qed.

End Rounding.

(* ================================================================== *)
(** ** Scoring one response *)
(* ================================================================== *)

Section Scoring.



Lemma correctMarks_instant (q : Question) (rt : Q) :
  valid_question q -> rt == 0 -> correctMarks q rt == q_marks q.
Proof.
  intros (_ & _ & _ & Ht & _ & Hint & Hm) E.
  unfold correctMarks, Math_max.
  assert (F : (q_timeLimitSeconds q - rt) / q_timeLimitSeconds q == 1).
  { rewrite E. field. lra. }
  rewrite (round2_comp _ (q_marks q)).
  - apply round2_id, is_int_two_decimals, Hint.
  - rewrite Q.max_r.
    + rewrite Q.max_r; [rewrite F; ring | rewrite F; discriminate].
    + rewrite Q.max_r; [|rewrite F; discriminate]. rewrite F. lra.
Qed.


Lemma scoreResponse_two_decimals (qm : gmap string Question)
    (r : ResponseInput) (s : QuestionResponse) :
  scoreResponse qm r = Ok s -> two_decimals (qr_marksAwarded s).
Proof.
  unfold scoreResponse.
  destruct (qm !! ri_questionId r) as [q|]; [|discriminate].
  intros [= <-]. simpl.
  destruct (answerIsCorrect q (ri_selectedAnswerIndex r)).
  - apply round2_two_decimals.
  - apply two_decimals_0.
Qed.

End Scoring.


(* ================================================================== *)
(** ** The question map and the scoring loop *)
(* ================================================================== *)

Section QuestionMap.

Implicit Types (qs : list Question) (m : gmap string Question) (k : string).

Lemma questionMap_acc_None qs m k :
  fold_left (fun m q => <[q_id q := q]> m) qs m !! k = None <->
  m !! k = None /\ k ∉ map q_id qs.
Proof.
  revert m. induction qs as [|q qs IH]; intros m; simpl.
  - split; [intros H; split; [exact H | apply not_elem_of_nil] | tauto].
  - rewrite IH, lookup_insert_None, not_elem_of_cons.
    split; [intros [[H1 H2] H3] | intros [H1 [H2 H3]]]; repeat split;
      try assumption; congruence.
Qed.

Lemma questionMap_acc_Some qs m k q :
  fold_left (fun m q => <[q_id q := q]> m) qs m !! k = Some q ->
  m !! k = Some q \/ (q ∈ qs /\ q_id q = k).
Proof.
  revert m. induction qs as [|q' qs IH]; intros m; simpl.
  - tauto.
  - intros H. destruct (IH _ H) as [H'|[H1 H2]].
    + apply lookup_insert_Some in H' as [[E1 E2]|[_ H']].
      * subst. right. split; [apply list_elem_of_here | reflexivity].
      * now left.
    + right. split; [now apply list_elem_of_further | exact H2].
Qed.

Lemma questionMap_of_None qs k :
  questionMap_of qs !! k = None <-> k ∉ map q_id qs.
Proof.
  unfold questionMap_of. rewrite questionMap_acc_None, lookup_empty. tauto.
Qed.

Lemma questionMap_of_Some qs k q :
  questionMap_of qs !! k = Some q -> q ∈ qs /\ q_id q = k.
Proof.
  unfold questionMap_of. intros H.
  apply questionMap_acc_Some in H as [H|H]; [|exact H].
  rewrite lookup_empty in H. discriminate.
Qed.

Lemma scoreResponse_known qs (r : ResponseInput) :
  ri_questionId r ∈ map q_id qs ->
  exists s, scoreResponse (questionMap_of qs) r = Ok s.
Proof.
  intros Hin. unfold scoreResponse.
  destruct (questionMap_of qs !! ri_questionId r) eqn:E.
  - eexists. reflexivity.
  - apply questionMap_of_None in E. contradiction.
Qed.

Lemma scoreResponse_unknown qs (r : ResponseInput) :
  ri_questionId r ∉ map q_id qs ->
  scoreResponse (questionMap_of qs) r =
    Throw (mkAppError
             ("Question " +:+ ri_questionId r +:+ " not found in this quiz") 400).
Proof.
  intros Hin. unfold scoreResponse.
  apply questionMap_of_None in Hin. now rewrite Hin.
Qed.

End QuestionMap.

Section MapThrow.

Context {A B : Type} (f : A -> result B).

Lemma mapThrow_Ok_Forall2 (xs : list A) (ys : list B) :
  mapThrow f xs = Ok ys -> Forall2 (fun x y => f x = Ok y) xs ys.
Proof.
  revert ys. induction xs as [|x xs IH]; intros ys; simpl.
  - intros [= <-]. constructor.
  - destruct (f x) as [y|e] eqn:E; [|discriminate].
    destruct (mapThrow f xs) as [ys'|e]; [|discriminate].
    intros [= <-]. constructor; [exact E | now apply IH].
Qed.

Lemma mapThrow_total (xs : list A) :
  Forall (fun x => exists y, f x = Ok y) xs ->
  exists ys, mapThrow f xs = Ok ys.
Proof.
  induction 1 as [|x xs [y Hy] _ [ys IH]]; simpl.
  - eexists. reflexivity.
  - rewrite Hy, IH. eexists. reflexivity.
Qed.

(** The exception that leaves the loop is the one of the first element
    on which the callback throws. *)
Lemma mapThrow_first_Throw (xs : list A) :
  Exists (fun x => failed (f x) = true) xs ->
  exists pre x post e,
    xs = pre ++ x :: post /\
    Forall (fun x => failed (f x) = false) pre /\
    f x = Throw e /\ mapThrow f xs = Throw e.
Proof.
  induction xs as [|x xs IH]; intros H.
  - inversion H.
  - destruct (f x) as [y|e] eqn:E.
    + assert (H' : Exists (fun x => failed (f x) = true) xs).
      { inversion H as [? ? Hx|? ? Hx]; subst; [|exact Hx].
        rewrite E in Hx. discriminate. }
      destruct (IH H') as (pre & x' & post & e & -> & Hpre & Hx' & Hm).
      exists (x :: pre), x', post, e. simpl. rewrite E, Hm.
      repeat split; try assumption.
      constructor; [now rewrite E | exact Hpre].
    + exists [], x, xs, e. simpl. rewrite E.
      repeat split. constructor.
Qed.

End MapThrow.

(* ================================================================== *)
(** ** [submitQuizAttempt] *)
(* ================================================================== *)

Section Submit.

Lemma scoreResponse_Throw_inv (qs : list Question) (r : ResponseInput) (e : AppError) :
  scoreResponse (questionMap_of qs) r = Throw e ->
  (ri_questionId r ∉ map q_id qs) /\
  e = mkAppError
        ("Question " +:+ ri_questionId r +:+ " not found in this quiz") 400.
Proof.
  unfold scoreResponse.
  destruct (questionMap_of qs !! ri_questionId r) eqn:E; [discriminate|].
  intros [= <-]. split; [now apply questionMap_of_None | reflexivity].
Qed.

Lemma scoreResponse_Ok_known (qs : list Question) (r : ResponseInput) :
  failed (scoreResponse (questionMap_of qs) r) = false ->
  ri_questionId r ∈ map q_id qs.
Proof.
  intros H.
  destruct (decide (ri_questionId r ∈ map q_id qs)) as [Hin|Hout]; [exact Hin|].
  rewrite (scoreResponse_unknown qs r Hout) in H. discriminate.
Qed.

(** The handler once the quiz is found, visible, and every response is
    scored. *)
Lemma submitQuizAttempt_scored (id name : string) (responses : list ResponseInput)
    (now : Z) (db : QuizDb) (quiz : Quiz) (scored : list QuestionResponse) :
  Quiz_findById id db = Some quiz ->
  quiz_isVisible quiz = true ->
  mapThrow (scoreResponse (questionMap_of (quiz_questions quiz))) responses
    = Ok scored ->
  submitQuizAttempt id name (Some responses) now db =
    let totalMarks := sumQ (map qr_marksAwarded scored) in
    let maxMarks := sumQ (map q_marks (quiz_questions quiz)) in
    let a := mkQuizAttempt id name scored (round2 totalMarks) maxMarks
               (if Qlt_le_dec 0 maxMarks
                then inject_Z (Math_round (totalMarks / maxMarks * 10000)) / 100
                else 0) now in
    (Ok a, mkQuizDb (quizzes db) (attempts db ++ [a])).
Proof.
  intros Hf Hv Hs. unfold submitQuizAttempt, bind, get.
  rewrite Hf, Hv. simpl negb. cbv iota. rewrite Hs. reflexivity.
Qed.

Lemma scored_two_decimals (qm : gmap string Question)
    (responses : list ResponseInput) (scored : list QuestionResponse) :
  mapThrow (scoreResponse qm) responses = Ok scored ->
  Forall two_decimals (map qr_marksAwarded scored).
Proof.
  intros H. apply mapThrow_Ok_Forall2 in H.
  induction H as [|r s rs ss Hr _ IH]; simpl; constructor.
  - eapply scoreResponse_two_decimals, Hr.
  - exact IH.
Qed.

(** An exception never leaves anything behind in the collections. *)
Lemma submitQuizAttempt_Throw_unchanged (id name : string)
    (responses : option (list ResponseInput)) (now : Z) (db db' : QuizDb)
    (e : AppError) :
  submitQuizAttempt id name responses now db = (Throw e, db') -> db' = db.
Proof.
  unfold submitQuizAttempt, bind, get, throw.
  destruct (Quiz_findById id db) as [quiz|]; [|now intros [= _ <-]].
  destruct (quiz_isVisible quiz); simpl; [|now intros [= _ <-]].
  destruct responses as [responses|]; [|now intros [= _ <-]].
  destruct (mapThrow _ responses); [|now intros [= _ <-]].
  unfold QuizAttempt_create. discriminate.
Qed.

End Submit.


(** C3.  A response whose [questionId] matches no question of the quiz
    makes the whole submission fail and leaves the attempt collection as
    it was; when the quiz is visible the error is the 400 that names the
    first such id. *)
Theorem C3_unknown_question_rejected (id name : string)
    (responses : list ResponseInput) (now : Z) (db : QuizDb) (quiz : Quiz) :
  Quiz_findById id db = Some quiz ->
  Exists (fun r => ri_questionId r ∉ map q_id (quiz_questions quiz)) responses ->
  exists e : AppError,
    submitQuizAttempt id name (Some responses) now db = (Throw e, db) /\
    (quiz_isVisible quiz = true ->
     exists pre r post,
       responses = pre ++ r :: post /\
       Forall (fun r' => ri_questionId r' ∈ map q_id (quiz_questions quiz)) pre /\
       (ri_questionId r ∉ map q_id (quiz_questions quiz)) /\
       e = mkAppError
             ("Question " +:+ ri_questionId r +:+ " not found in this quiz") 400).
Proof.
  intros Hf Hex.
  unfold submitQuizAttempt, bind, get, throw. rewrite Hf.
  destruct (quiz_isVisible quiz) eqn:Hv; simpl.
  - destruct (mapThrow_first_Throw
                (scoreResponse (questionMap_of (quiz_questions quiz))) responses)
      as (pre & r & post & e & Hsplit & Hpre & Hr & Hm).
    { eapply Exists_impl; [exact Hex|].
      intros r Hr. simpl. now rewrite scoreResponse_unknown. }
    rewrite Hm. exists e. split; [reflexivity|]. intros _.
    apply scoreResponse_Throw_inv in Hr as [Hout ->].
    exists pre, r, post. repeat split; try assumption.
    eapply Forall_impl; [exact Hpre|].
    intros r' Hr'. now apply scoreResponse_Ok_known.
  - eexists. split; [reflexivity|]. discriminate.
Qed.

(** C10.  A hidden quiz accepts no attempt: the handler throws the 403
    "This quiz is not available" before looking at the responses, and the
    attempt collection is left as it was. *)
Theorem C10_hidden_quiz_rejected (id name : string)
    (responses : option (list ResponseInput)) (now : Z) (db : QuizDb) (quiz : Quiz) :
  Quiz_findById id db = Some quiz ->
  quiz_isVisible quiz = false ->
  submitQuizAttempt id name responses now db
    = (Throw (mkAppError "This quiz is not available" 403), db).
Proof.
  intros Hf Hv. unfold submitQuizAttempt, bind, get, throw.
  now rewrite Hf, Hv.
Qed.

(* ================================================================== *)
(** ** List helpers of the team controller *)
(* ================================================================== *)

Close Scope Q_scope.

Section ListHelpers.

Context {A : Type} (P : A -> Prop) `{!forall x, Decision (P x)}.

Lemma findIndex_None (xs : list A) :
  findIndex P xs = None <-> Forall (fun x => ~ P x) xs.
Proof.
  unfold findIndex. rewrite fmap_None. apply list_find_None.
Qed.

Lemma findIndex_split (pre : list A) (x : A) (post : list A) :
  Forall (fun x => ~ P x) pre -> P x ->
  findIndex P (pre ++ x :: post) = Some (length pre).
Proof.
  intros Hpre Hx. unfold findIndex.
  rewrite list_find_app_r by now apply list_find_None.
  simpl. destruct (decide (P x)) as [_|N]; [|contradiction].
  reflexivity.
Qed.

Lemma findIndex_Some_split (xs : list A) (i : nat) :
  findIndex P xs = Some i ->
  exists pre x post,
    xs = pre ++ x :: post /\ length pre = i /\
    Forall (fun x => ~ P x) pre /\ P x.
Proof.
  unfold findIndex. intros Hfind.
  apply fmap_Some in Hfind as ([j x] & Hfind & ->). simpl.
  apply list_find_Some in Hfind as (Hx & HP & Hleast).
  exists (take j xs), x, (drop (S j) xs).
  split; [symmetry; now apply take_drop_middle|].
  assert (Hlen : j < length xs) by (eapply lookup_lt_Some, Hx).
  split; [rewrite length_take; lia|].
  split; [|exact HP].
  apply Forall_lookup. intros k y Hk.
  apply lookup_take_Some in Hk as [Hk Hlt]. now apply (Hleast k y).
Qed.

Lemma alter_middle (f : A -> A) (pre : list A) (x : A) (post : list A) :
  alter f (length pre) (pre ++ x :: post) = pre ++ f x :: post.
Proof.
  induction pre as [|y pre IH]; simpl; [reflexivity|].
  f_equal. exact IH.
Qed.

End ListHelpers.

Lemma every_Forall {A} (p : A -> bool) (xs : list A) :
  every p xs = true <-> Forall (fun x => p x = true) xs.
Proof.
  unfold every. rewrite forallb_forall, Forall_forall.
  split; intros H x Hx; apply H; now apply list_elem_of_In.
Qed.

Lemma not_member_Forall (sid : string) (ms : list CompetitionTeamMember) :
  sid ∉ map m_studentId ms <-> Forall (fun m => ~ m_studentId m = sid) ms.
Proof.
  induction ms as [|m ms IH]; simpl.
  - split; [constructor | intros _; apply not_elem_of_nil].
  - rewrite not_elem_of_cons, Forall_cons, IH.
    split; intros [H1 H2]; split; try assumption; congruence.
Qed.

(* ================================================================== *)
(** ** [createTeam] *)
(* ================================================================== *)

Lemma invited_ids (students : gmap string Student) (memberIds : list string) :
  map m_studentId (invited students memberIds)
    = filter (fun id => is_Some (students !! id)) memberIds.
Proof.
  unfold invited, Student_findById.
  induction memberIds as [|id ids IH]; [reflexivity|].
  cbn [map]. rewrite filter_cons.
  destruct (students !! id) as [s|] eqn:E.
  - destruct (decide (is_Some (Some s))) as [_|N]; [|destruct N; eauto].
    cbn. f_equal. exact IH.
  - destruct (decide (is_Some (@None Student))) as [[? Y]|_]; [discriminate|].
    cbn. exact IH.
Qed.

Lemma invited_pending (students : gmap string Student) (memberIds : list string) :
  Forall (fun m => m_status m = TeamMemberStatus.pending /\ m_joinedAt m = None)
    (invited students memberIds).
Proof.
  unfold invited, Student_findById.
  induction memberIds as [|id ids IH]; [constructor|].
  cbn [map]. destruct (students !! id); cbn; [constructor; auto | exact IH].
Qed.

Lemma createTeam_Ok (students : gmap string Student) (newId name : string)
    (memberIds : option (list string)) (leaderId : string)
    (teams : gmap string CompetitionTeam) (leader : Student) :
  students !! leaderId = Some leader ->
  CompetitionTeam_existsName name teams = false ->
  teams !! newId = None ->
  createTeam students newId name memberIds leaderId teams =
    let validMembers := invited students (default [] memberIds) in
    let team := mkTeam name leaderId (s_name leader) (s_email leader) validMembers
                  (if (0 <? length validMembers)%nat
                   then TeamStatus.pending else TeamStatus.active) in
    (Ok team, <[newId := team]> teams).
Proof.
  intros Hl Hn Hid. unfold createTeam, Student_findById at 1.
  rewrite Hl. unfold bind, get. rewrite Hn.
  unfold CompetitionTeam_create. rewrite Hid. reflexivity.
Qed.

(** Either [createTeam] leaves the collection alone, or it adds the new
    team under an id that was free. *)
Lemma createTeam_cases (students : gmap string Student) (newId name : string)
    (memberIds : option (list string)) (leaderId : string)
    (teams : gmap string CompetitionTeam) :
  snd (createTeam students newId name memberIds leaderId teams) = teams \/
  exists leader,
    students !! leaderId = Some leader /\ teams !! newId = None /\
    let validMembers := invited students (default [] memberIds) in
    snd (createTeam students newId name memberIds leaderId teams) =
      <[newId := mkTeam name leaderId (s_name leader) (s_email leader) validMembers
                   (if (0 <? length validMembers)%nat
                    then TeamStatus.pending else TeamStatus.active)]> teams.
Proof.
  destruct (students !! leaderId) as [leader|] eqn:Hl.
  - destruct (CompetitionTeam_existsName name teams) eqn:Hn.
    + left. unfold createTeam, Student_findById at 1.
      rewrite Hl. unfold bind, get. now rewrite Hn.
    + destruct (teams !! newId) eqn:Hid.
      * left. unfold createTeam, Student_findById at 1.
        rewrite Hl. unfold bind, get. rewrite Hn.
        unfold CompetitionTeam_create. now rewrite Hid.
      * right. exists leader. repeat split; try assumption.
        now rewrite (createTeam_Ok _ _ _ _ _ _ leader Hl Hn Hid).
  - left. unfold createTeam, Student_findById at 1. now rewrite Hl.
Qed.



(* ================================================================== *)
(** ** [respondToInvitation] *)
(* ================================================================== *)

Lemma status_check_passes (status : string) :
  status = "approved" \/ status = "rejected" ->
  negb (bool_decide (status ∈ ["approved"; "rejected"])) = false.
Proof.
  intros H. apply negb_false_iff, bool_decide_eq_true.
  destruct H as [-> | ->].
  - apply list_elem_of_here.
  - apply list_elem_of_further, list_elem_of_here.
Qed.

Lemma status_check_inv (status : string) :
  negb (bool_decide (status ∈ ["approved"; "rejected"])) = false ->
  status = "approved" \/ status = "rejected".
Proof.
  intros H. apply negb_false_iff, bool_decide_eq_true in H.
  apply elem_of_cons in H as [H|H]; [now left|].
  apply elem_of_cons in H as [H|H]; [now right|].
  now apply elem_of_nil in H.
Qed.

Lemma respondToInvitation_Ok (status studentId teamId : string) (now : Z)
    (teams : gmap string CompetitionTeam) (team : CompetitionTeam)
    (pre : list CompetitionTeamMember) (m : CompetitionTeamMember)
    (post : list CompetitionTeamMember) :
  status = "approved" \/ status = "rejected" ->
  teams !! teamId = Some team ->
  t_members team = pre ++ m :: post ->
  studentId ∉ map m_studentId pre ->
  m_studentId m = studentId ->
  respondToInvitation status studentId teamId now teams =
    (Ok (after_response status now team pre m post),
     <[teamId := after_response status now team pre m post]> teams).
Proof.
  intros Hs Ht Hm Hpre Hsid.
  unfold respondToInvitation. rewrite (status_check_passes status Hs).
  unfold bind, get. rewrite Ht, Hm.
  rewrite (findIndex_split (fun m => m_studentId m = studentId) pre m post);
    [|now apply not_member_Forall | exact Hsid].
  rewrite alter_middle.
  unfold after_response, responded, CompetitionTeam_save, ret.
  unfold with_members, with_status. cbn [t_members t_status t_name t_leaderId
    t_leaderName t_leaderEmail].
  destruct (decide (status = "approved")) as [E|E].
  - rewrite alter_middle.
    unfold member_with_joinedAt, member_with_status.
    cbn [m_studentId m_name m_email m_registrationNo m_status m_joinedAt].
    destruct (_ && _); reflexivity.
  - unfold member_with_status.
    destruct (_ && _); reflexivity.
Qed.

Lemma respondToInvitation_not_invited (status studentId teamId : string) (now : Z)
    (teams : gmap string CompetitionTeam) (team : CompetitionTeam) :
  status = "approved" \/ status = "rejected" ->
  teams !! teamId = Some team ->
  studentId ∉ member_ids team ->
  respondToInvitation status studentId teamId now teams =
    (Throw (mkAppError "You are not invited to this team" 400), teams).
Proof.
  intros Hs Ht Hout.
  unfold respondToInvitation. rewrite (status_check_passes status Hs).
  unfold bind, get. rewrite Ht.
  apply not_member_Forall in Hout.
  apply (findIndex_None (fun m => m_studentId m = studentId)) in Hout.
  now rewrite Hout.
Qed.

(** Either [respondToInvitation] leaves the collection alone, or it
    stores [after_response] for the first entry of the responding
    student. *)
Lemma respondToInvitation_cases (status studentId teamId : string) (now : Z)
    (teams : gmap string CompetitionTeam) :
  snd (respondToInvitation status studentId teamId now teams) = teams \/
  exists team pre m post,
    teams !! teamId = Some team /\
    t_members team = pre ++ m :: post /\
    snd (respondToInvitation status studentId teamId now teams)
      = <[teamId := after_response status now team pre m post]> teams.
Proof.
  destruct (negb (bool_decide (status ∈ ["approved"; "rejected"]))) eqn:Hs.
  { left. unfold respondToInvitation. now rewrite Hs. }
  apply status_check_inv in Hs.
  destruct (teams !! teamId) as [team|] eqn:Ht.
  - destruct (findIndex (fun m => m_studentId m = studentId) (t_members team))
      as [i|] eqn:Hi.
    + right.
      apply findIndex_Some_split in Hi as (pre & m & post & Hm & _ & Hpre & Hsid).
      exists team, pre, m, post. repeat split; try assumption.
      rewrite (respondToInvitation_Ok status studentId teamId now teams team
                 pre m post Hs Ht Hm); [reflexivity | | exact Hsid].
      now apply not_member_Forall.
    + left. apply findIndex_None, not_member_Forall in Hi.
      now rewrite (respondToInvitation_not_invited _ _ _ _ _ team Hs Ht Hi).
  - left. unfold respondToInvitation. rewrite (status_check_passes status Hs).
    unfold bind, get. now rewrite Ht.
Qed.

Lemma after_response_member_ids (status : string) (now : Z) (team : CompetitionTeam)
    (pre : list CompetitionTeamMember) (m : CompetitionTeamMember)
    (post : list CompetitionTeamMember) :
  t_members team = pre ++ m :: post ->
  member_ids (after_response status now team pre m post) = member_ids team.
Proof.
  intros Hm. unfold member_ids, after_response. cbn [t_members].
  rewrite Hm, !map_app. reflexivity.
Qed.

Lemma after_response_status (status : string) (now : Z) (team : CompetitionTeam)
    (pre : list CompetitionTeamMember) (m : CompetitionTeamMember)
    (post : list CompetitionTeamMember) :
  let team' := after_response status now team pre m post in
  (t_status team' = TeamStatus.active /\
   Forall (fun m => m_status m = TeamMemberStatus.approved) (t_members team')) \/
  (t_status team' = t_status team /\
   ~ (Forall (fun m => m_status m <> TeamMemberStatus.pending) (t_members team') /\
      Forall (fun m => m_status m = TeamMemberStatus.approved) (t_members team'))).
Proof.
  unfold after_response. cbn [t_members t_status].
  set (members := pre ++ responded status now m :: post).
  destruct (every (fun m => bool_decide (m_status m <> TeamMemberStatus.pending)) members)
    eqn:E1;
  destruct (every (fun m => bool_decide (m_status m = TeamMemberStatus.approved)) members)
    eqn:E2; cbn [andb].
  - left. split; [reflexivity|].
    apply every_Forall in E2.
    eapply Forall_impl; [exact E2|]. intros x Hx. now apply bool_decide_eq_true in Hx.
  - right. split; [reflexivity|]. intros [_ H2].
    assert (every (fun m => bool_decide (m_status m = TeamMemberStatus.approved)) members
            = true); [|congruence].
    apply every_Forall. eapply Forall_impl; [exact H2|].
    intros x Hx. now apply bool_decide_eq_true.
  - right. split; [reflexivity|]. intros [H1 _].
    assert (every (fun m => bool_decide (m_status m <> TeamMemberStatus.pending)) members
            = true); [|congruence].
    apply every_Forall. eapply Forall_impl; [exact H1|].
    intros x Hx. now apply bool_decide_eq_true.
  - right. split; [reflexivity|]. intros [H1 _].
    assert (every (fun m => bool_decide (m_status m <> TeamMemberStatus.pending)) members
            = true); [|congruence].
    apply every_Forall. eapply Forall_impl; [exact H1|].
    intros x Hx. now apply bool_decide_eq_true.
Qed.

(** C5.  [respondToInvitation] with a decision [approved] or [rejected]:
    a missing team gives the 404 "Team not found"; a student without a
    member entry gives the 400 "You are not invited to this team";
    otherwise the (first) entry of the student gets the decision as its
    status, and [joinedAt] set to [now] when the decision is [approved];
    the team becomes [active] exactly when afterwards no member is
    pending and every member is approved, and keeps its status otherwise,
    so that a rejection leaves the status of the team as it was. *)
Theorem C5_respondToInvitation (status studentId teamId : string) (now : Z)
    (teams : gmap string CompetitionTeam) :
  status = "approved" \/ status = "rejected" ->
  let decision :=
    if decide (status = "approved")
    then TeamMemberStatus.approved else TeamMemberStatus.rejected in
  (teams !! teamId = None ->
   respondToInvitation status studentId teamId now teams
     = (Throw (mkAppError "Team not found" 404), teams)) /\
  (forall team : CompetitionTeam,
      teams !! teamId = Some team ->
      (studentId ∉ member_ids team ->
       respondToInvitation status studentId teamId now teams
         = (Throw (mkAppError "You are not invited to this team" 400), teams)) /\
      (forall pre m post,
          t_members team = pre ++ m :: post ->
          studentId ∉ map m_studentId pre ->
          m_studentId m = studentId ->
          exists team' : CompetitionTeam,
            respondToInvitation status studentId teamId now teams
              = (Ok team', <[teamId := team']> teams) /\
            t_members team'
              = pre ++ mkMember (m_studentId m) (m_name m) (m_email m)
                         (m_registrationNo m) decision
                         (if decide (status = "approved")
                          then Some now else m_joinedAt m) :: post /\
            t_name team' = t_name team /\
            t_leaderId team' = t_leaderId team /\
            t_leaderName team' = t_leaderName team /\
            t_leaderEmail team' = t_leaderEmail team /\
            (Forall (fun x => m_status x <> TeamMemberStatus.pending) (t_members team') /\
             Forall (fun x => m_status x = TeamMemberStatus.approved) (t_members team') ->
             t_status team' = TeamStatus.active) /\
            (~ (Forall (fun x => m_status x <> TeamMemberStatus.pending) (t_members team') /\
                Forall (fun x => m_status x = TeamMemberStatus.approved) (t_members team')) ->
             t_status team' = t_status team) /\
            (status = "rejected" -> t_status team' = t_status team))).
Proof.
  intros Hs decision. split.
  - intros Ht. unfold respondToInvitation.
    rewrite (status_check_passes status Hs). unfold bind, get. now rewrite Ht.
  - intros team Ht. split.
    + now apply respondToInvitation_not_invited.
    + intros pre m post Hm Hpre Hsid.
      exists (after_response status now team pre m post).
      split; [now apply respondToInvitation_Ok|].
      split; [reflexivity|].
      do 4 (split; [reflexivity|]).
      pose proof (after_response_status status now team pre m post) as Hst.
      cbv zeta in Hst.
      assert (Hrej : status = "rejected" ->
                     ~ Forall (fun x => m_status x = TeamMemberStatus.approved)
                         (t_members (after_response status now team pre m post))).
      { intros -> Hall. unfold after_response in Hall. cbn [t_members] in Hall.
        apply Forall_app in Hall as [_ Hall].
        apply Forall_cons in Hall as [Hall _].
        unfold responded in Hall. cbn in Hall. discriminate. }
      split; [|split].
      * intros Hall. destruct Hst as [[H _]|[_ H]]; [exact H | contradiction].
      * intros Hnot. destruct Hst as [[_ H]|[H _]]; [|exact H].
        destruct Hnot. split; [|exact H].
        eapply Forall_impl; [exact H|]. intros x Hx. rewrite Hx. discriminate.
      * intros Hr. destruct Hst as [[_ H]|[H _]]; [|exact H].
        now destruct (Hrej Hr).
Qed.

(* ================================================================== *)
(** ** [leaveTeam], [removeMember], [disbandTeam] *)
(* ================================================================== *)

Lemma without_member_removed (studentId : string) (team : CompetitionTeam) :
  removed_outright studentId team (without_member studentId team).
Proof.
  unfold removed_outright, without_member, with_members, member_ids.
  cbn [t_name t_leaderId t_leaderName t_leaderEmail t_status t_members].
  do 6 (split; [reflexivity|]).
  split.
  { intros Hin. apply list_elem_of_fmap in Hin as (m & Hid & Hm).
    apply list_elem_of_filter in Hm as [Hne _]. congruence. }
  split.
  { intros m Hm Hne. apply list_elem_of_filter. now split. }
  split.
  { intros m Hm. now apply list_elem_of_filter in Hm as [_ Hm]. }
  split.
  { apply length_filter. }
  intros Hin. apply list_elem_of_fmap in Hin as (m & Hid & Hm).
  apply (length_filter_lt _ _ m Hm). intros Hne. congruence.
Qed.

Lemma leaveTeam_Ok (studentId teamId : string)
    (teams : gmap string CompetitionTeam) (team : CompetitionTeam) :
  teams !! teamId = Some team ->
  t_leaderId team <> studentId ->
  leaveTeam studentId teamId teams
    = (Ok tt, <[teamId := without_member studentId team]> teams).
Proof.
  intros Ht Hl. unfold leaveTeam, bind, get. rewrite Ht.
  destruct (decide (t_leaderId team = studentId)); [contradiction|].
  reflexivity.
Qed.

Lemma leaveTeam_leader (teamId : string)
    (teams : gmap string CompetitionTeam) (team : CompetitionTeam) :
  teams !! teamId = Some team ->
  leaveTeam (t_leaderId team) teamId teams
    = (Throw (mkAppError
                "Team leader cannot leave. Disband the team instead." 400),
       teams).
Proof.
  intros Ht. unfold leaveTeam, bind, get. rewrite Ht.
  destruct (decide (t_leaderId team = t_leaderId team)); [reflexivity|contradiction].
Qed.

Lemma removeMember_Ok (teamId memberId : string)
    (teams : gmap string CompetitionTeam) (team : CompetitionTeam) :
  teams !! teamId = Some team ->
  removeMember (t_leaderId team) teamId memberId teams
    = (Ok (without_member memberId team),
       <[teamId := without_member memberId team]> teams).
Proof.
  intros Ht. unfold removeMember, bind, get. rewrite Ht.
  destruct (decide (t_leaderId team <> t_leaderId team)); [contradiction|].
  reflexivity.
Qed.

Lemma leaveTeam_cases (studentId teamId : string)
    (teams : gmap string CompetitionTeam) :
  snd (leaveTeam studentId teamId teams) = teams \/
  exists team,
    teams !! teamId = Some team /\
    snd (leaveTeam studentId teamId teams)
      = <[teamId := without_member studentId team]> teams.
Proof.
  destruct (teams !! teamId) as [team|] eqn:Ht.
  - destruct (decide (t_leaderId team = studentId)) as [E|N].
    + left. subst studentId. now rewrite (leaveTeam_leader teamId teams team Ht).
    + right. exists team. split; [reflexivity|].
      now rewrite (leaveTeam_Ok studentId teamId teams team Ht N).
  - left. unfold leaveTeam, bind, get. now rewrite Ht.
Qed.

Lemma removeMember_cases (studentId teamId memberId : string)
    (teams : gmap string CompetitionTeam) :
  snd (removeMember studentId teamId memberId teams) = teams \/
  exists team,
    teams !! teamId = Some team /\
    snd (removeMember studentId teamId memberId teams)
      = <[teamId := without_member memberId team]> teams.
Proof.
  destruct (teams !! teamId) as [team|] eqn:Ht.
  - destruct (decide (t_leaderId team = studentId)) as [E|N].
    + right. exists team. split; [reflexivity|]. subst studentId.
      now rewrite (removeMember_Ok teamId memberId teams team Ht).
    + left. unfold removeMember, bind, get. rewrite Ht.
      destruct (decide (t_leaderId team <> studentId)); [reflexivity|contradiction].
  - left. unfold removeMember, bind, get. now rewrite Ht.
Qed.

Lemma disbandTeam_cases (studentId teamId : string)
    (teams : gmap string CompetitionTeam) :
  snd (disbandTeam studentId teamId teams) = teams \/
  exists team,
    teams !! teamId = Some team /\
    snd (disbandTeam studentId teamId teams)
      = <[teamId := with_status team TeamStatus.disbanded]> teams.
Proof.
  unfold disbandTeam, bind, get.
  destruct (teams !! teamId) as [team|] eqn:Ht; [|now left].
  destruct (decide (t_leaderId team <> studentId)); [now left|].
  right. exists team. split; reflexivity.
Qed.

(** C9.  [leaveTeam] (by a student who is not the leader) and
    [removeMember] (by the leader) succeed by storing the team with the
    entries of the given student filtered out of the member list: the
    entry is gone, not marked rejected, the list does not grow and is
    strictly shorter when the student had an entry, the other entries are
    kept as they were, and the name, the leader fields and the status of
    the team are unchanged; no other team is touched. *)
Theorem C9_leave_and_remove_only_shrink_members (teamId : string)
    (teams : gmap string CompetitionTeam) (team : CompetitionTeam) :
  teams !! teamId = Some team ->
  (forall studentId : string,
      t_leaderId team <> studentId ->
      exists team' : CompetitionTeam,
        leaveTeam studentId teamId teams = (Ok tt, <[teamId := team']> teams) /\
        removed_outright studentId team team') /\
  (forall memberId : string,
      exists team' : CompetitionTeam,
        removeMember (t_leaderId team) teamId memberId teams
          = (Ok team', <[teamId := team']> teams) /\
        removed_outright memberId team team') /\
  (forall (team' : CompetitionTeam) (other : string),
      other <> teamId -> (<[teamId := team']> teams) !! other = teams !! other).
Proof.
  intros Ht. split; [|split].
  - intros studentId Hl. exists (without_member studentId team).
    split; [now apply leaveTeam_Ok | apply without_member_removed].
  - intros memberId. exists (without_member memberId team).
    split; [now apply removeMember_Ok | apply without_member_removed].
  - intros team' other Hne. now apply lookup_insert_ne.
Qed.

(* ================================================================== *)
(** ** What one request does to one team *)
(* ================================================================== *)

Lemma update_cases (teams : gmap string CompetitionTeam) (tid teamId : string)
    (new : CompetitionTeam) (team : CompetitionTeam) (P : CompetitionTeam -> Prop) :
  teams !! teamId = Some team ->
  P team -> (tid = teamId -> P new) ->
  exists team', (<[tid := new]> teams) !! teamId = Some team' /\ P team'.
Proof.
  intros Ht HP Hnew.
  destruct (decide (tid = teamId)) as [E|N].
  - exists new. subst tid. rewrite lookup_insert_eq. split; [reflexivity | now apply Hnew].
  - exists team. rewrite lookup_insert_ne by exact N. now split.
Qed.

(** A team that exists stays in the collection, and changes only in the
    ways of [team_step]. *)
Lemma serve_existing_team (r : Request) (teams : gmap string CompetitionTeam)
    (teamId : string) (team : CompetitionTeam) :
  teams !! teamId = Some team ->
  exists team', serve r teams !! teamId = Some team' /\ team_step r teamId team team'.
Proof.
  intros Ht.
  destruct r as [students newId name memberIds leaderId
                | status studentId tid now | studentId tid | studentId tid
                | studentId tid memberId]; cbn [serve].
  - destruct (createTeam_cases students newId name memberIds leaderId teams)
      as [->|(leader & _ & Hfree & ->)].
    + exists team. split; [exact Ht | now left].
    + apply (update_cases teams newId teamId _ team); [exact Ht | now left |].
      intros ->. congruence.
  - destruct (respondToInvitation_cases status studentId tid now teams)
      as [->|(t0 & pre & m & post & Ht0 & Hm & ->)].
    + exists team. split; [exact Ht | now left].
    + apply (update_cases teams tid teamId _ team); [exact Ht | now left |].
      intros ->. right. split; [reflexivity|].
      assert (t0 = team) by congruence. subst t0. eauto.
  - destruct (leaveTeam_cases studentId tid teams) as [->|(t0 & Ht0 & ->)].
    + exists team. split; [exact Ht | now left].
    + apply (update_cases teams tid teamId _ team); [exact Ht | now left |].
      intros ->. right. split; [reflexivity|]. congruence.
  - destruct (disbandTeam_cases studentId tid teams) as [->|(t0 & Ht0 & ->)].
    + exists team. split; [exact Ht | now left].
    + apply (update_cases teams tid teamId _ team); [exact Ht | now left |].
      intros ->. right. split; [reflexivity|]. congruence.
  - destruct (removeMember_cases studentId tid memberId teams)
      as [->|(t0 & Ht0 & ->)].
    + exists team. split; [exact Ht | now left].
    + apply (update_cases teams tid teamId _ team); [exact Ht | now left |].
      intros ->. right. split; [reflexivity|]. congruence.
Qed.

(** A team appears in the collection only through [createTeam]. *)
Lemma serve_new_team (r : Request) (teams : gmap string CompetitionTeam)
    (teamId : string) (team' : CompetitionTeam) :
  teams !! teamId = None ->
  serve r teams !! teamId = Some team' ->
  exists students name memberIds leaderId leader,
    r = ReqCreateTeam students teamId name memberIds leaderId /\
    students !! leaderId = Some leader /\
    team' = created_team students name memberIds leaderId leader.
Proof.
  intros Hnone.
  destruct r as [students newId name memberIds leaderId
                | status studentId tid now | studentId tid | studentId tid
                | studentId tid memberId]; cbn [serve].
  - destruct (createTeam_cases students newId name memberIds leaderId teams)
      as [->|(leader & Hl & Hfree & ->)]; [congruence|].
    cbv zeta. intros H.
    apply lookup_insert_Some in H as [[-> <-]|[_ H]]; [|congruence].
    exists students, name, memberIds, leaderId, leader. auto.
  - destruct (respondToInvitation_cases status studentId tid now teams)
      as [->|(t0 & pre & m & post & Ht0 & Hm & ->)]; [congruence|].
    intros H. apply lookup_insert_Some in H as [[-> _]|[_ H]]; congruence.
  - destruct (leaveTeam_cases studentId tid teams) as [->|(t0 & Ht0 & ->)];
      [congruence|].
    intros H. apply lookup_insert_Some in H as [[-> _]|[_ H]]; congruence.
  - destruct (disbandTeam_cases studentId tid teams) as [->|(t0 & Ht0 & ->)];
      [congruence|].
    intros H. apply lookup_insert_Some in H as [[-> _]|[_ H]]; congruence.
  - destruct (removeMember_cases studentId tid memberId teams)
      as [->|(t0 & Ht0 & ->)]; [congruence|].
    intros H. apply lookup_insert_Some in H as [[-> _]|[_ H]]; congruence.
Qed.

(** A property of single teams that every accepted request establishes
    for new teams and preserves for existing ones holds of all teams of
    the collection after any history of accepted requests. *)
Lemma serveAll_invariant (accepted : Request -> Prop) (I : CompetitionTeam -> Prop) :
  (forall students newId name memberIds leaderId leader,
      accepted (ReqCreateTeam students newId name memberIds leaderId) ->
      students !! leaderId = Some leader ->
      I (created_team students name memberIds leaderId leader)) ->
  (forall r teamId team team',
      accepted r -> I team -> team_step r teamId team team' -> I team') ->
  forall (rs : list Request) (teams : gmap string CompetitionTeam),
    Forall accepted rs ->
    map_Forall (fun _ team => I team) teams ->
    map_Forall (fun _ team => I team) (serveAll rs teams).
Proof.
  intros Hnew Hstep rs.
  induction rs as [|r rs IH]; intros teams Hrs Hteams; [exact Hteams|].
  apply Forall_cons in Hrs as [Hr Hrs].
  cbn. apply IH; [exact Hrs|].
  intros teamId team' Hlook.
  destruct (teams !! teamId) as [team|] eqn:Ht.
  - destruct (serve_existing_team r teams teamId team Ht) as (t1 & H1 & Hs).
    assert (t1 = team') by congruence. subst t1.
    eapply Hstep; [exact Hr | exact (Hteams teamId team Ht) | exact Hs].
  - destruct (serve_new_team r teams teamId team' Ht Hlook)
      as (students & name & memberIds & leaderId & leader & -> & Hl & ->).
    eapply Hnew; [exact Hr | exact Hl].
Qed.

(* ================================================================== *)
(** ** The status of a disbanded team *)
(* ================================================================== *)

Lemma team_step_status (r : Request) (teamId : string)
    (team team' : CompetitionTeam) :
  team_step r teamId team team' ->
  t_status team' = t_status team \/
  t_status team' = TeamStatus.disbanded \/
  (t_status team' = TeamStatus.active /\
   (exists status studentId now, r = ReqRespond status studentId teamId now) /\
   Forall (fun m => m_status m = TeamMemberStatus.approved) (t_members team')).
Proof.
  intros [->|H]; [now left|].
  destruct r as [students newId name memberIds leaderId
                | status studentId tid now | studentId tid | studentId tid
                | studentId tid memberId].
  - contradiction.
  - destruct H as (-> & pre & m & post & Hm & ->).
    destruct (after_response_status status now team pre m post) as [[H1 H2]|[H1 _]].
    + right. right. split; [exact H1|]. split; [eauto | exact H2].
    + now left.
  - destruct H as (-> & ->). now left.
  - destruct H as (-> & ->). right. now left.
  - destruct H as (-> & ->). now left.
Qed.

Lemma serveAll_never_pending (rs : list Request)
    (teams : gmap string CompetitionTeam) (teamId : string) (team : CompetitionTeam) :
  teams !! teamId = Some team ->
  t_status team <> TeamStatus.pending ->
  exists team', serveAll rs teams !! teamId = Some team' /\
                t_status team' <> TeamStatus.pending.
Proof.
  revert teams team.
  induction rs as [|r rs IH]; intros teams team Ht Hs.
  - exists team. now split.
  - destruct (serve_existing_team r teams teamId team Ht) as (t1 & H1 & Hstep).
    cbn. apply (IH (serve r teams) t1 H1).
    apply team_step_status in Hstep as [E|[E|[E _]]]; congruence.
Qed.

(** C6 (as amended).  Once a team is [disbanded], [createTeam],
    [leaveTeam], [removeMember] and [disbandTeam] leave its status
    [disbanded]; [respondToInvitation] leaves it [disbanded] too, unless
    after the response every member of the team is approved, in which case
    it sets the status to [active].  No request, and no history of
    requests, ever makes the status [pending] again. *)
Theorem C6_disbanded_team_status (teams : gmap string CompetitionTeam)
    (teamId : string) (team : CompetitionTeam) :
  teams !! teamId = Some team ->
  t_status team = TeamStatus.disbanded ->
  (forall r : Request,
      exists team' : CompetitionTeam,
        serve r teams !! teamId = Some team' /\
        (t_status team' = TeamStatus.disbanded \/
         (t_status team' = TeamStatus.active /\
          (exists status studentId now, r = ReqRespond status studentId teamId now) /\
          Forall (fun m => m_status m = TeamMemberStatus.approved)
            (t_members team')))) /\
  (forall rs : list Request,
      exists team' : CompetitionTeam,
        serveAll rs teams !! teamId = Some team' /\
        t_status team' <> TeamStatus.pending).
Proof.
  intros Ht Hs. split.
  - intros r.
    destruct (serve_existing_team r teams teamId team Ht) as (team' & H1 & Hstep).
    exists team'. split; [exact H1|].
    apply team_step_status in Hstep as [E|[E|E]].
    + left. congruence.
    + now left.
    + now right.
  - intros rs. apply (serveAll_never_pending rs teams teamId team Ht).
    rewrite Hs. discriminate.
Qed.

(** C6, the claim as stated, fails: after the leader has disbanded a team
    whose only invitee has not answered yet, the approval of that invitee
    makes the team [active]. *)
Lemma C6_disbanded_team_becomes_active :
  ~ (forall (rs : list Request) (r : Request) (teamId : string)
            (team team' : CompetitionTeam),
        serveAll rs ∅ !! teamId = Some team ->
        t_status team = TeamStatus.disbanded ->
        serve r (serveAll rs ∅) !! teamId = Some team' ->
        t_status team' <> TeamStatus.pending /\
        t_status team' <> TeamStatus.active).
Proof.
  intros H.
  specialize (H demo_disbanded_history
                (ReqRespond "approved" "a" "t1" 1700000000000)
                "t1" _ _ eq_refl eq_refl eq_refl).
  destruct H as [_ H]. now apply H.
Qed.

(* ================================================================== *)
(** ** The leader and the member list *)
(* ================================================================== *)

Lemma created_team_member_ids (students : gmap string Student) (name : string)
    (memberIds : option (list string)) (leaderId : string) (leader : Student) :
  member_ids (created_team students name memberIds leaderId leader)
    = filter (fun id => is_Some (students !! id)) (default [] memberIds).
Proof. unfold created_team, member_ids. cbn [t_members]. apply invited_ids. Qed.

Lemma team_step_leader (r : Request) (teamId : string)
    (team team' : CompetitionTeam) :
  team_step r teamId team team' ->
  t_leaderId team' = t_leaderId team /\
  t_leaderName team' = t_leaderName team /\
  t_leaderEmail team' = t_leaderEmail team /\
  (forall id, id ∈ member_ids team' -> id ∈ member_ids team).
Proof.
  intros [->|H]; [now repeat split|].
  destruct r as [students newId name memberIds leaderId
                | status studentId tid now | studentId tid | studentId tid
                | studentId tid memberId].
  - contradiction.
  - destruct H as (-> & pre & m & post & Hm & ->).
    do 3 (split; [reflexivity|]). intros id. now rewrite after_response_member_ids.
  - destruct H as (-> & ->). do 3 (split; [reflexivity|]).
    intros id Hin. unfold member_ids in *.
    apply list_elem_of_fmap in Hin as (m & -> & Hm).
    apply list_elem_of_fmap_2.
    now apply (without_member_removed studentId team).
  - destruct H as (-> & ->). now repeat split.
  - destruct H as (-> & ->). do 3 (split; [reflexivity|]).
    intros id Hin. unfold member_ids in *.
    apply list_elem_of_fmap in Hin as (m & -> & Hm).
    apply list_elem_of_fmap_2.
    now apply (without_member_removed memberId team).
Qed.

(** C7 (as amended).  In every team reached by a history of requests
    in which no [createTeam] request lists its own leader among the
    invitee ids, the leader has no member entry.  [leaveTeam] invoked by
    the leader fails with the 400 "Team leader cannot leave. Disband the
    team instead." and changes nothing.  No request, [removeMember]
    included, ever changes the leader of a team. *)
Theorem C7_leader_and_member_list (rs : list Request) (teamId : string)
    (team : CompetitionTeam) :
  Forall leader_not_invited rs ->
  serveAll rs ∅ !! teamId = Some team ->
  (t_leaderId team ∉ member_ids team) /\
  leaveTeam (t_leaderId team) teamId (serveAll rs ∅)
    = (Throw (mkAppError
                "Team leader cannot leave. Disband the team instead." 400),
       serveAll rs ∅) /\
  (forall r : Request,
      exists team' : CompetitionTeam,
        serve r (serveAll rs ∅) !! teamId = Some team' /\
        t_leaderId team' = t_leaderId team /\
        t_leaderName team' = t_leaderName team /\
        t_leaderEmail team' = t_leaderEmail team).
Proof.
  intros Hrs Ht.
  split; [|split].
  - assert (Hinv : map_Forall (fun _ team => t_leaderId team ∉ member_ids team)
                     (serveAll rs ∅)).
    { apply (serveAll_invariant leader_not_invited
               (fun team => t_leaderId team ∉ member_ids team)).
      - intros students newId name memberIds leaderId leader Hacc Hl.
        rewrite created_team_member_ids. cbn in *.
        intros Hin. apply list_elem_of_filter in Hin as [_ Hin]. contradiction.
      - intros r tid t0 t1 _ H0 Hstep Hin.
        apply team_step_leader in Hstep as (El & _ & _ & Hsub).
        apply H0. rewrite <- El. now apply Hsub.
      - exact Hrs.
      - apply map_Forall_empty. }
    exact (Hinv teamId team Ht).
  - now apply leaveTeam_leader.
  - intros r.
    destruct (serve_existing_team r (serveAll rs ∅) teamId team Ht)
      as (team' & H1 & Hstep).
    exists team'. split; [exact H1|].
    apply team_step_leader in Hstep as (E1 & E2 & E3 & _). auto.
Qed.

(** C7, the claim as stated, fails: [createTeam] does not take the
    leader's own id out of the invitee ids, so a leader who invites
    themselves gets a member entry; and [removeMember] given the leader's
    id then succeeds instead of rejecting the request. *)
Lemma C7_leader_becomes_member :
  exists team : CompetitionTeam,
    serveAll [ReqCreateTeam demo_students "t1" "Compilers" (Some ["L"]) "L"] ∅
      !! "t1" = Some team /\
    t_leaderId team ∈ member_ids team /\
    failed (fst (removeMember (t_leaderId team) "t1" (t_leaderId team)
                   (serveAll [ReqCreateTeam demo_students "t1" "Compilers"
                                (Some ["L"]) "L"] ∅))) = false.
Proof.
  eexists. split; [reflexivity|]. split; [|reflexivity].
  apply list_elem_of_here.
Qed.

(* ================================================================== *)
(** ** Correctness flags in the read endpoints *)
(* ================================================================== *)

Lemma select_without_isCorrect_flags (id : string) (x y : Quiz) :
  same_quiz_but_flags x y ->
  select_without_isCorrect (id, x) = select_without_isCorrect (id, y).
Proof.
  intros (Ht & Hd & Hq & Hv). unfold select_without_isCorrect.
  rewrite Ht, Hd, Hv. f_equal.
  induction Hq as [|p q ps qs (Hi & Hx & Ha & Hl & Hm) _ IH]; [reflexivity|].
  cbn [map]. rewrite IH, Hi, Hx, Hl, Hm. do 2 f_equal.
  clear -Ha. induction Ha as [|a b l k Hab _ IH]; [reflexivity|].
  cbn [map]. unfold same_answer_text in Hab. now rewrite IH, Hab.
Qed.

(** The listing sends the same documents for two selections that differ
    only in correctness flags. *)
Lemma getAllQuizzes_hides_isCorrect (xs ys : list (string * Quiz)) :
  Forall2 (fun x y => fst x = fst y /\ same_quiz_but_flags (snd x) (snd y)) xs ys ->
  getAllQuizzes_quizzes xs = getAllQuizzes_quizzes ys.
Proof.
  unfold getAllQuizzes_quizzes.
  induction 1 as [|[i x] [j y] xs ys [Hi Hf] _ IH]; [reflexivity|].
  cbn [map]. cbn in Hi. subst j. f_equal; [|exact IH].
  now apply select_without_isCorrect_flags.
Qed.

Lemma getQuizById_found (id : string) (db : QuizDb) (quiz : Quiz) :
  Quiz_findById id db = Some quiz -> getQuizById id db = (Ok quiz, db).
Proof. intros H. unfold getQuizById, bind, get, ret. now rewrite H. Qed.

(** C8.  [getQuizById] sends the stored document with the [isCorrect]
    flag of every answer: two quizzes that differ only in those flags,
    and that the listing does send identically, get different responses
    from [getQuizById]. *)
Theorem C8_getQuizById_sends_isCorrect :
  same_quiz_but_flags demo_quiz demo_quiz_reflagged /\
  getAllQuizzes_quizzes [("z1", demo_quiz)]
    = getAllQuizzes_quizzes [("z1", demo_quiz_reflagged)] /\
  fst (getQuizById "z1" (mkQuizDb {["z1" := demo_quiz]} []))
    = Ok demo_quiz /\
  fst (getQuizById "z1" (mkQuizDb {["z1" := demo_quiz_reflagged]} []))
    = Ok demo_quiz_reflagged /\
  fst (getQuizById "z1" (mkQuizDb {["z1" := demo_quiz]} []))
    <> fst (getQuizById "z1" (mkQuizDb {["z1" := demo_quiz_reflagged]} [])).
Proof.
  split; [|split; [reflexivity|split; [reflexivity|split; [reflexivity|]]]].
  - repeat split. constructor; [|constructor].
    repeat split. repeat constructor.
  - cbn. intros [=].
Qed.

(* ================================================================== *)
(** ** The theorems at the sample data *)
(* ================================================================== *)

Lemma demo_question_valid : valid_question demo_question.
Proof.
  unfold valid_question, demo_question. cbn.
  repeat split; try (exists 20%Z; reflexivity); try (exists 10%Z; reflexivity);
    discriminate.
Defined.



Lemma C3_witness :
  Quiz_findById "z1" demo_quiz_db = Some demo_quiz /\
  Exists (fun r => ri_questionId r ∉ map q_id (quiz_questions demo_quiz))
    [mkResponseInput "q1" 0 10%Q; mkResponseInput "q9" 0 1%Q] /\
  exists e : AppError,
    submitQuizAttempt "z1" "Bo"
      (Some [mkResponseInput "q1" 0 10%Q; mkResponseInput "q9" 0 1%Q]) 0 demo_quiz_db
      = (Throw e, demo_quiz_db).
Proof.
  assert (Hex : Exists (fun r => ri_questionId r ∉ map q_id (quiz_questions demo_quiz))
                  [mkResponseInput "q1" 0 10%Q; mkResponseInput "q9" 0 1%Q]).
  { apply Exists_cons_tl, Exists_cons_hd. cbn.
    intros H. apply elem_of_cons in H as [H|H]; [discriminate|].
    now apply elem_of_nil in H. }
  split; [reflexivity|]. split; [exact Hex|].
  destruct (C3_unknown_question_rejected "z1" "Bo"
              [mkResponseInput "q1" 0 10%Q; mkResponseInput "q9" 0 1%Q] 0
              demo_quiz_db demo_quiz eq_refl Hex) as (e & He & _).
  exists e. exact He.
Defined.

Lemma C10_witness :
  Quiz_findById "z2" demo_quiz_db = Some demo_hidden_quiz /\
  quiz_isVisible demo_hidden_quiz = false /\
  submitQuizAttempt "z2" "Bo" (Some [mkResponseInput "q1" 0 10%Q]) 0 demo_quiz_db
    = (Throw (mkAppError "This quiz is not available" 403), demo_quiz_db).
Proof.
  split; [reflexivity|]. split; [reflexivity|].
  exact (C10_hidden_quiz_rejected "z2" "Bo" (Some [mkResponseInput "q1" 0 10%Q]) 0
           demo_quiz_db demo_hidden_quiz eq_refl eq_refl).
Defined.


Lemma C5_witness :
  ("approved" = "approved" \/ "approved" = "rejected") /\
  exists team team' : CompetitionTeam,
    serveAll demo_history ∅ !! "t1" = Some team /\
    t_status team = TeamStatus.pending /\
    respondToInvitation "approved" "a" "t1" 1700000000000 (serveAll demo_history ∅)
      = (Ok team', <["t1" := team']> (serveAll demo_history ∅)) /\
    t_status team' = TeamStatus.active.
Proof.
  split; [now left|].
  destruct (C5_respondToInvitation "approved" "a" "t1" 1700000000000
              (serveAll demo_history ∅) (or_introl eq_refl)) as [_ H].
  edestruct H as [_ H']; [reflexivity|].
  edestruct (H' []) as (team' & Hr & Hm & _ & _ & _ & _ & Hact & _);
    [reflexivity | apply not_elem_of_nil | reflexivity |].
  eexists. exists team'. split; [reflexivity|]. split; [reflexivity|].
  split; [exact Hr|].
  apply Hact. rewrite Hm. split; repeat constructor. discriminate.
Defined.

Lemma C6_witness :
  exists team : CompetitionTeam,
    serveAll demo_disbanded_history ∅ !! "t1" = Some team /\
    t_status team = TeamStatus.disbanded /\
    exists team' : CompetitionTeam,
      serveAll [ReqLeave "a" "t1"; ReqRespond "approved" "a" "t1" 1700000000000]
        (serveAll demo_disbanded_history ∅) !! "t1" = Some team' /\
      t_status team' <> TeamStatus.pending.
Proof.
  edestruct (C6_disbanded_team_status (serveAll demo_disbanded_history ∅) "t1")
    as [_ H]; [reflexivity | reflexivity |].
  eexists. split; [reflexivity|]. split; [reflexivity|].
  exact (H [ReqLeave "a" "t1"; ReqRespond "approved" "a" "t1" 1700000000000]).
Defined.

Lemma C7_witness :
  Forall leader_not_invited
    (demo_history ++ [ReqRespond "approved" "a" "t1" 1700000000000]) /\
  exists team : CompetitionTeam,
    serveAll (demo_history ++ [ReqRespond "approved" "a" "t1" 1700000000000]) ∅
      !! "t1" = Some team /\
    (t_leaderId team ∉ member_ids team) /\
    leaveTeam (t_leaderId team) "t1"
      (serveAll (demo_history ++ [ReqRespond "approved" "a" "t1" 1700000000000]) ∅)
      = (Throw (mkAppError
                  "Team leader cannot leave. Disband the team instead." 400),
         serveAll (demo_history ++ [ReqRespond "approved" "a" "t1" 1700000000000]) ∅).
Proof.
  assert (Hrs : Forall leader_not_invited
                  (demo_history ++ [ReqRespond "approved" "a" "t1" 1700000000000])).
  { repeat constructor. cbn.
    intros H. apply elem_of_cons in H as [H|H]; [discriminate|].
    apply elem_of_cons in H as [H|H]; [discriminate|].
    now apply elem_of_nil in H. }
  split; [exact Hrs|].
  edestruct (C7_leader_and_member_list
               (demo_history ++ [ReqRespond "approved" "a" "t1" 1700000000000])
               "t1") as (H1 & H2 & _); [exact Hrs | reflexivity |].
  eexists. split; [reflexivity|].
  split; [exact H1 | exact H2].
Defined.

Lemma C9_witness :
  exists team : CompetitionTeam,
    serveAll demo_history ∅ !! "t1" = Some team /\
    exists team' : CompetitionTeam,
      leaveTeam "a" "t1" (serveAll demo_history ∅)
        = (Ok tt, <["t1" := team']> (serveAll demo_history ∅)) /\
      removed_outright "a" team team'.
Proof.
  edestruct (C9_leave_and_remove_only_shrink_members "t1" (serveAll demo_history ∅))
    as (H & _); [reflexivity|].
  eexists. split; [reflexivity|].
  apply H. discriminate.
Defined.

(* ================================================================== *)
(** ** Bounds and monotonicity of the marks *)
(* ================================================================== *)

Section Marks.

Local Open Scope Q_scope.

Lemma round2_le (x y : Q) : x <= y -> round2 x <= round2 y.
Proof.
  intros H. unfold round2, Math_round.
  apply Qmult_le_compat_r; [|discriminate].
  rewrite <- Zle_Qle. apply Qfloor_resp_le. lra.
Qed.

Lemma timeFraction_le (t rt1 rt2 : Q) :
  0 < t -> rt1 <= rt2 ->
  Qmax 0 ((t - rt2) / t) <= Qmax 0 ((t - rt1) / t).
Proof.
  intros Ht H. apply Q.max_le_compat_l.
  apply Qmult_le_compat_r; [lra|].
  apply Qlt_le_weak, Qinv_lt_0_compat, Ht.
Qed.

Lemma timeFraction_le_1 (t rt : Q) :
  0 < t -> 0 <= rt -> Qmax 0 ((t - rt) / t) <= 1.
Proof.
  intros Ht H. apply Q.max_lub; [discriminate|].
  apply Qle_shift_div_r; [exact Ht | lra].
Qed.

Lemma correctMarks_le (q : Question) (rt1 rt2 : Q) :
  0 < q_timeLimitSeconds q -> 0 <= q_marks q -> rt1 <= rt2 ->
  correctMarks q rt2 <= correctMarks q rt1.
Proof.
  intros Ht Hm H. unfold correctMarks, Math_max.
  apply round2_le, Q.max_le_compat_l.
  rewrite !(Qmult_comm (q_marks q)).
  apply Qmult_le_compat_r; [|exact Hm].
  now apply timeFraction_le.
Qed.

Lemma correctMarks_bounds (q : Question) (rt : Q) :
  valid_question q -> 0 <= rt ->
  q_marks q * (1 # 10) <= correctMarks q rt /\ correctMarks q rt <= q_marks q.
Proof.
  intros Hv Hrt.
  pose proof Hv as (_ & _ & _ & Ht & _ & Hint & Hm).
  split.
  - apply Qle_trans with (round2 (q_marks q * (1 # 10))).
    + rewrite round2_id by now apply is_int_tenth_two_decimals. apply Qle_refl.
    + unfold correctMarks, Math_max. apply round2_le, Q.le_max_l.
  - apply Qle_trans with (round2 (q_marks q)).
    + unfold correctMarks, Math_max. apply round2_le, Q.max_lub; [lra|].
      apply Qle_trans with (q_marks q * 1); [|lra].
      rewrite !(Qmult_comm (q_marks q)).
      apply Qmult_le_compat_r; [|lra].
      apply timeFraction_le_1; lra.
    + rewrite round2_id by now apply is_int_two_decimals. apply Qle_refl.
Qed.

End Marks.

Lemma scoreResponse_marks_bounds (qm : gmap string Question)
    (response : ResponseInput) (question : Question) (r : QuestionResponse) :
  qm !! ri_questionId response = Some question ->
  valid_question question ->
  (0 <= ri_responseTimeSeconds response)%Q ->
  scoreResponse qm response = Ok r ->
  (0 <= qr_marksAwarded r)%Q /\
  (qr_marksAwarded r <= q_marks question)%Q /\
  (qr_isCorrect r = true -> (q_marks question * (1 # 10) <= qr_marksAwarded r)%Q) /\
  (qr_isCorrect r = false -> qr_marksAwarded r = 0%Q).
Proof.
  intros Hq Hv Hrt. unfold scoreResponse. rewrite Hq. intros [= <-].
  cbn [qr_marksAwarded qr_isCorrect].
  pose proof Hv as (_ & _ & _ & _ & _ & _ & Hm).
  destruct (correctMarks_bounds question (ri_responseTimeSeconds response) Hv Hrt)
    as [Hlo Hhi].
  destruct (answerIsCorrect question (ri_selectedAnswerIndex response)).
  - split; [lra|]. split; [exact Hhi|].
    split; [intros _; exact Hlo | discriminate].
  - split; [apply Qle_refl|]. split; [lra|].
    split; [discriminate | reflexivity].
Qed.

(** X1.  Marks of one response stay within the marks of its question:
    for a question accepted by the validators and a response time that is
    not negative, a scored response has between 0 and [marks] marks, at
    least a tenth of [marks] when it is correct and none otherwise. *)
Theorem X1_marks_within_question (qm : gmap string Question)
    (response : ResponseInput) (question : Question) (r : QuestionResponse) :
  qm !! ri_questionId response = Some question ->
  valid_question question ->
  (0 <= ri_responseTimeSeconds response)%Q ->
  scoreResponse qm response = Ok r ->
  (0 <= qr_marksAwarded r)%Q /\
  (qr_marksAwarded r <= q_marks question)%Q /\
  (qr_isCorrect r = true -> (q_marks question * (1 # 10) <= qr_marksAwarded r)%Q) /\
  (qr_isCorrect r = false -> qr_marksAwarded r = 0%Q).
Proof.
  intros Hq Hv Hrt. unfold scoreResponse. rewrite Hq. intros [= <-].
  cbn [qr_marksAwarded qr_isCorrect].
  pose proof Hv as (_ & _ & _ & _ & _ & _ & Hm).
  destruct (correctMarks_bounds question (ri_responseTimeSeconds response) Hv Hrt)
    as [Hlo Hhi].
  destruct (answerIsCorrect question (ri_selectedAnswerIndex response)).
  - split; [lra|]. split; [exact Hhi|].
    split; [intros _; exact Hlo | discriminate].
  - split; [apply Qle_refl|]. split; [lra|].
    split; [discriminate | reflexivity].
Qed.

(** X2.  Answering sooner never scores fewer marks: of two responses to
    the same question with the same selected answer, the one with the
    smaller response time gets at least the marks of the other. *)
Theorem X2_faster_not_worse (qm : gmap string Question)
    (r1 r2 : ResponseInput) (question : Question) (s1 s2 : QuestionResponse) :
  qm !! ri_questionId r1 = Some question ->
  (0 < q_timeLimitSeconds question)%Q ->
  (0 <= q_marks question)%Q ->
  ri_questionId r2 = ri_questionId r1 ->
  ri_selectedAnswerIndex r2 = ri_selectedAnswerIndex r1 ->
  (ri_responseTimeSeconds r1 <= ri_responseTimeSeconds r2)%Q ->
  scoreResponse qm r1 = Ok s1 ->
  scoreResponse qm r2 = Ok s2 ->
  (qr_marksAwarded s2 <= qr_marksAwarded s1)%Q.
Proof.
  intros Hq Ht Hm Eid Eidx Hrt. unfold scoreResponse.
  rewrite Eid, Eidx, Hq. intros [= <-] [= <-].
  cbn [qr_marksAwarded].
  destruct (answerIsCorrect question (ri_selectedAnswerIndex r1)).
  - now apply correctMarks_le.
  - apply Qle_refl.
Qed.

(* ================================================================== *)
(** ** Totals of an attempt *)
(* ================================================================== *)

Section Totals.

Local Open Scope Q_scope.

Lemma Math_round_le (x y : Q) : x <= y -> (Math_round x <= Math_round y)%Z.
Proof. intros H. unfold Math_round. apply Qfloor_resp_le. lra. Qed.

Lemma sumQ_nil : sumQ [] == 0.
Proof. reflexivity. Qed.

Lemma sumQ_Forall2_le (xs ys : list Q) :
  Forall2 Qle xs ys -> sumQ xs <= sumQ ys.
Proof.
  induction 1 as [|x y xs ys Hxy _ IH]; [apply Qle_refl|].
  rewrite !sumQ_cons. lra.
Qed.

Lemma sumQ_Forall2_eq (xs ys : list Q) :
  Forall2 Qeq xs ys -> sumQ xs == sumQ ys.
Proof.
  induction 1 as [|x y xs ys Hxy _ IH]; [reflexivity|].
  rewrite !sumQ_cons, Hxy, IH. reflexivity.
Qed.

Lemma sumQ_nonneg (xs : list Q) : Forall (Qle 0) xs -> 0 <= sumQ xs.
Proof.
  induction 1 as [|x xs Hx _ IH]; [apply Qle_refl|].
  rewrite sumQ_cons. lra.
Qed.

(** The sum over a sub-multiset of non-negative terms is no larger. *)
Lemma sumQ_submseteq {A} (f : A -> Q) (l k : list A) :
  l ⊆+ k -> Forall (fun x => 0 <= f x) k ->
  sumQ (map f l) <= sumQ (map f k).
Proof.
  induction 1 as [|x l k _ IH|x y l|x l k _ IH|l k m Hlk IH1 Hkm IH2]; intros Hk.
  - apply Qle_refl.
  - apply Forall_cons in Hk as [_ Hk]. cbn [map]. rewrite !sumQ_cons.
    specialize (IH Hk). lra.
  - cbn [map]. rewrite !sumQ_cons. lra.
  - apply Forall_cons in Hk as [Hx Hk]. cbn [map]. rewrite sumQ_cons.
    specialize (IH Hk). lra.
  - apply Qle_trans with (sumQ (map f k)); [|now apply IH2].
    apply IH1. apply Forall_forall. intros x Hx.
    eapply (proj1 (Forall_forall _ _) Hk), elem_of_submseteq; eassumption.
Qed.

Lemma NoDup_map_inj {A B} (f : A -> B) (l : list A) (x y : A) :
  NoDup (map f l) -> x ∈ l -> y ∈ l -> f x = f y -> x = y.
Proof.
  induction l as [|a l IH]; intros Hnd Hx Hy E.
  - now apply elem_of_nil in Hx.
  - cbn [map] in Hnd. apply NoDup_cons in Hnd as [Ha Hnd].
    apply elem_of_cons in Hx as [->|Hx]; apply elem_of_cons in Hy as [->|Hy].
    + reflexivity.
    + destruct Ha. rewrite E. now apply (list_elem_of_fmap_2 f).
    + destruct Ha. rewrite <- E. now apply (list_elem_of_fmap_2 f).
    + now apply IH.
Qed.

(** With distinct question ids the map finds every question of the quiz
    under its own id. *)
Lemma questionMap_of_NoDup (qs : list Question) (q : Question) :
  NoDup (map q_id qs) -> q ∈ qs -> questionMap_of qs !! q_id q = Some q.
Proof.
  intros Hnd Hq.
  destruct (questionMap_of qs !! q_id q) as [q'|] eqn:E.
  - apply questionMap_of_Some in E as [Hq' Eid].
    f_equal. now apply (NoDup_map_inj q_id qs).
  - apply questionMap_of_None in E. destruct E.
    now apply (list_elem_of_fmap_2 q_id).
Qed.

Lemma submitQuizAttempt_hidden (id name : string)
    (responses : option (list ResponseInput)) (now : Z) (db : QuizDb) (quiz : Quiz) :
  Quiz_findById id db = Some quiz ->
  quiz_isVisible quiz = false ->
  fst (submitQuizAttempt id name responses now db)
    = Throw (mkAppError "This quiz is not available" 403).
Proof.
  intros Hf Hv. unfold submitQuizAttempt, bind, get, throw. now rewrite Hf, Hv.
Qed.

Lemma submitQuizAttempt_Ok_inv (id name : string)
    (responses : option (list ResponseInput)) (now : Z) (db db' : QuizDb)
    (a : QuizAttempt) :
  submitQuizAttempt id name responses now db = (Ok a, db') ->
  exists quiz rs scored,
    Quiz_findById id db = Some quiz /\
    quiz_isVisible quiz = true /\
    responses = Some rs /\
    mapThrow (scoreResponse (questionMap_of (quiz_questions quiz))) rs = Ok scored /\
    submitQuizAttempt id name responses now db
      = (Ok a, mkQuizDb (quizzes db) (attempts db ++ [a])) /\
    db' = mkQuizDb (quizzes db) (attempts db ++ [a]) /\
    at_quizId a = id /\ at_participantName a = name /\
    at_responses a = scored /\ at_completedAt a = now /\
    at_totalMarks a = round2 (sumQ (map qr_marksAwarded scored)) /\
    at_maxMarks a = sumQ (map q_marks (quiz_questions quiz)) /\
    at_percentage a
      = (if Qlt_le_dec 0 (sumQ (map q_marks (quiz_questions quiz)))
         then inject_Z (Math_round (sumQ (map qr_marksAwarded scored)
                                      / sumQ (map q_marks (quiz_questions quiz))
                                      * 10000)) / 100
         else 0).
Proof.
  intros H.
  destruct (Quiz_findById id db) as [quiz|] eqn:Hf;
    [|unfold submitQuizAttempt, bind, get, throw in H; rewrite Hf in H; discriminate].
  destruct (quiz_isVisible quiz) eqn:Hv;
    [|pose proof (submitQuizAttempt_hidden id name responses now db quiz Hf Hv) as Hh;
      rewrite H in Hh; discriminate].
  destruct responses as [rs|];
    [|unfold submitQuizAttempt, bind, get, throw in H; rewrite Hf, Hv in H;
      discriminate].
  destruct (mapThrow (scoreResponse (questionMap_of (quiz_questions quiz))) rs)
    as [scored|e] eqn:Hs;
    [|unfold submitQuizAttempt, bind, get, throw in H; rewrite Hf, Hv in H;
      cbn in H; rewrite Hs in H; discriminate].
  rewrite (submitQuizAttempt_scored id name rs now db quiz scored Hf Hv Hs) in H |- *.
  cbv zeta in H |- *. injection H as <- <-.
  exists quiz, rs, scored. repeat split; try reflexivity; assumption.
Qed.

End Totals.

Section TotalsBound.

Local Open Scope Q_scope.

(** The questions that the responses of a scored submission select, one
    per response, each bounding the marks of its response. *)
Lemma scored_selected (qs : list Question) (rs : list ResponseInput)
    (scored : list QuestionResponse) :
  Forall valid_question qs ->
  Forall (fun r => 0 <= ri_responseTimeSeconds r) rs ->
  mapThrow (scoreResponse (questionMap_of qs)) rs = Ok scored ->
  exists sel : list Question,
    map q_id sel = map ri_questionId rs /\
    Forall (fun q => q ∈ qs) sel /\
    0 <= sumQ (map qr_marksAwarded scored) /\
    sumQ (map qr_marksAwarded scored) <= sumQ (map q_marks sel).
Proof.
  intros Hv Hrt Hs. apply mapThrow_Ok_Forall2 in Hs.
  induction Hs as [|r s rs scored Hr _ IH].
  - exists []. repeat split; try constructor; apply Qle_refl.
  - apply Forall_cons in Hrt as [Hr0 Hrt].
    destruct (IH Hrt) as (sel & Hids & Hin & H0 & Hle).
    destruct (questionMap_of qs !! ri_questionId r) as [q|] eqn:Hq;
      [|unfold scoreResponse in Hr; rewrite Hq in Hr; discriminate].
    pose proof (questionMap_of_Some qs _ q Hq) as [Hqin Hqid].
    assert (Hvq : valid_question q)
      by exact (proj1 (Forall_forall _ _) Hv q Hqin).
    destruct (scoreResponse_marks_bounds _ r q s Hq Hvq Hr0 Hr) as (B0 & B1 & _).
    exists (q :: sel). cbn [map]. rewrite !sumQ_cons.
    split; [now rewrite Hqid, Hids|].
    split; [now constructor|].
    split; lra.
Qed.

Lemma percentage_bounds (total maxMarks : Q) :
  0 <= total -> total <= maxMarks -> 0 < maxMarks ->
  0 <= inject_Z (Math_round (total / maxMarks * 10000)) / 100 /\
  inject_Z (Math_round (total / maxMarks * 10000)) / 100 <= 100.
Proof.
  intros H0 H1 Hm.
  assert (Hlo : 0 <= total / maxMarks * 10000).
  { apply Qmult_le_0_compat; [|discriminate].
    apply Qle_shift_div_l; [exact Hm | lra]. }
  assert (Hhi : total / maxMarks * 10000 <= 10000).
  { apply Qle_trans with (1 * 10000); [|discriminate].
    apply Qmult_le_compat_r; [|discriminate].
    apply Qle_shift_div_r; [exact Hm | lra]. }
  apply Math_round_le in Hlo, Hhi.
  change 0 with (inject_Z 0) in Hlo. change 10000 with (inject_Z 10000) in Hhi.
  rewrite Math_round_inject_Z in Hlo, Hhi.
  split.
  - apply Qle_shift_div_l; [reflexivity|]. rewrite Qmult_0_l.
    change 0 with (inject_Z 0). now rewrite <- Zle_Qle.
  - apply Qle_shift_div_r; [reflexivity|].
    change (100 * 100) with (inject_Z 10000). now rewrite <- Zle_Qle.
Qed.

End TotalsBound.

(** X3.  When every question of the quiz is one the validators accept, no
    question is answered twice and no response time is negative, the
    stored attempt has [0 <= totalMarks <= maxMarks] and a percentage
    between 0 and 100. *)
Theorem X3_total_within_max (id name : string) (responses : list ResponseInput)
    (now : Z) (db db' : QuizDb) (quiz : Quiz) (a : QuizAttempt) :
  Quiz_findById id db = Some quiz ->
  Forall valid_question (quiz_questions quiz) ->
  NoDup (map ri_questionId responses) ->
  Forall (fun r => (0 <= ri_responseTimeSeconds r)%Q) responses ->
  submitQuizAttempt id name (Some responses) now db = (Ok a, db') ->
  (0 <= at_totalMarks a)%Q /\
  (at_totalMarks a <= at_maxMarks a)%Q /\
  (0 <= at_percentage a)%Q /\
  (at_percentage a <= 100)%Q.
Proof.
  intros Hf Hv Hnd Hrt H.
  apply submitQuizAttempt_Ok_inv in H
    as (quiz' & rs & scored & Hf' & _ & [= <-] & Hs & _ & _ & _ & _ & _ & _
        & Ht & Hm & Hp).
  assert (quiz' = quiz) by congruence. subst quiz'.
  destruct (scored_selected _ _ _ Hv Hrt Hs) as (sel & Hids & Hin & H0 & Hle).
  assert (Hsel : (sumQ (map q_marks sel)
                  <= sumQ (map q_marks (quiz_questions quiz)))%Q).
  { apply sumQ_submseteq.
    - apply NoDup_submseteq.
      + apply (NoDup_fmap_1 q_id). change (NoDup (map q_id sel)). now rewrite Hids.
      + intros q Hq. exact (proj1 (Forall_forall _ _) Hin q Hq).
    - eapply Forall_impl; [exact Hv|].
      intros q (_ & _ & _ & _ & _ & _ & Hq). lra. }
  assert (Hid : (round2 (sumQ (map qr_marksAwarded scored))
                 == sumQ (map qr_marksAwarded scored))%Q).
  { apply round2_id, sumQ_two_decimals. eapply scored_two_decimals, Hs. }
  rewrite Ht, Hm, Hp, Hid.
  split; [exact H0|]. split; [lra|].
  destruct (Qlt_le_dec 0 (sumQ (map q_marks (quiz_questions quiz)))) as [Hpos|_].
  - apply percentage_bounds; [exact H0 | lra | exact Hpos].
  - split; discriminate.
Qed.

Section Perfect.

Local Open Scope Q_scope.

Lemma perfect_scores (qs0 qs : list Question) (rs : list ResponseInput) :
  (forall q, q ∈ qs -> questionMap_of qs0 !! q_id q = Some q) ->
  Forall valid_question qs ->
  Forall2 (fun q r => ri_questionId r = q_id q /\
                      answerIsCorrect q (ri_selectedAnswerIndex r) = true /\
                      ri_responseTimeSeconds r == 0) qs rs ->
  exists scored,
    mapThrow (scoreResponse (questionMap_of qs0)) rs = Ok scored /\
    Forall (fun s => qr_isCorrect s = true) scored /\
    sumQ (map qr_marksAwarded scored) == sumQ (map q_marks qs).
Proof.
  intros Hmap Hv H.
  induction H as [|q r qs rs (Hid & Hc & Hrt) _ IH].
  - exists []. repeat split. constructor.
  - apply Forall_cons in Hv as [Hvq Hv].
    destruct IH as (scored & Hs & Hall & Hsum); [|exact Hv|].
    { intros q' Hq'. apply Hmap. now apply list_elem_of_further. }
    cbn [mapThrow]. unfold scoreResponse at 1.
    rewrite Hid, (Hmap q (list_elem_of_here _ _)), Hc, Hs.
    eexists. split; [reflexivity|].
    split; [constructor; [reflexivity | exact Hall]|].
    cbn [map qr_marksAwarded]. rewrite !sumQ_cons, Hsum.
    now rewrite (correctMarks_instant q _ Hvq Hrt).
Qed.

Lemma sum_marks_positive (qs : list Question) :
  qs <> [] -> Forall valid_question qs -> 1 <= sumQ (map q_marks qs).
Proof.
  intros Hne Hv. destruct qs as [|q qs]; [contradiction|].
  apply Forall_cons in Hv as [(_ & _ & _ & _ & _ & _ & Hq) Hv].
  cbn [map]. rewrite sumQ_cons.
  assert (0 <= sumQ (map q_marks qs)); [|lra].
  apply sumQ_nonneg. apply Forall_forall. intros m Hm.
  apply list_elem_of_fmap in Hm as (q' & -> & Hq').
  destruct (proj1 (Forall_forall _ _) Hv q' Hq') as (_ & _ & _ & _ & _ & _ & H1).
  lra.
Qed.

End Perfect.

(** X4.  A full set of correct, instant responses gets full marks: for a
    quiz whose questions are accepted by the validators and have distinct
    ids, one correct response per question at response time 0 is stored
    with [totalMarks = maxMarks] and percentage 100. *)
Theorem X4_perfect_attempt (id name : string) (responses : list ResponseInput)
    (now : Z) (db : QuizDb) (quiz : Quiz) :
  Quiz_findById id db = Some quiz ->
  quiz_isVisible quiz = true ->
  quiz_questions quiz <> [] ->
  Forall valid_question (quiz_questions quiz) ->
  NoDup (map q_id (quiz_questions quiz)) ->
  Forall2 (fun q r => ri_questionId r = q_id q /\
                      answerIsCorrect q (ri_selectedAnswerIndex r) = true /\
                      (ri_responseTimeSeconds r == 0)%Q)
    (quiz_questions quiz) responses ->
  exists a : QuizAttempt,
    submitQuizAttempt id name (Some responses) now db
      = (Ok a, mkQuizDb (quizzes db) (attempts db ++ [a])) /\
    Forall (fun s => qr_isCorrect s = true) (at_responses a) /\
    (at_totalMarks a == at_maxMarks a)%Q /\
    (at_percentage a == 100)%Q.
Proof.
  intros Hf Hvis Hne Hv Hnd Hall.
  destruct (perfect_scores (quiz_questions quiz) (quiz_questions quiz) responses)
    as (scored & Hs & Hcorrect & Hsum); [|exact Hv|exact Hall|].
  { intros q Hq. now apply questionMap_of_NoDup. }
  rewrite (submitQuizAttempt_scored id name responses now db quiz scored Hf Hvis Hs).
  cbv zeta. eexists. split; [reflexivity|].
  cbn [at_responses at_totalMarks at_maxMarks at_percentage].
  split; [exact Hcorrect|].
  pose proof (sum_marks_positive _ Hne Hv) as Hpos.
  assert (Hid : (round2 (sumQ (map qr_marksAwarded scored))
                 == sumQ (map qr_marksAwarded scored))%Q).
  { apply round2_id, sumQ_two_decimals. eapply scored_two_decimals, Hs. }
  split; [now rewrite Hid|].
  destruct (Qlt_le_dec 0 (sumQ (map q_marks (quiz_questions quiz)))) as [_|Hle];
    [|exfalso; revert Hpos Hle; generalize (sumQ (map q_marks (quiz_questions quiz)));
      intros x ? ?; lra].
  rewrite (Math_round_comp _ (inject_Z 10000)).
  - rewrite Math_round_inject_Z. reflexivity.
  - rewrite Hsum. change (inject_Z 10000) with (10000%Q).
    revert Hpos. generalize (sumQ (map q_marks (quiz_questions quiz))).
    intros x Hx. field. lra.
Qed.

Lemma scored_echo (qm : gmap string Question) (rs : list ResponseInput)
    (scored : list QuestionResponse) :
  mapThrow (scoreResponse qm) rs = Ok scored ->
  map qr_questionId scored = map ri_questionId rs /\
  map qr_selectedAnswerIndex scored = map ri_selectedAnswerIndex rs /\
  map qr_responseTimeSeconds scored = map ri_responseTimeSeconds rs.
Proof.
  intros H. apply mapThrow_Ok_Forall2 in H.
  induction H as [|r s rs scored Hr _ (I1 & I2 & I3)]; [repeat split|].
  unfold scoreResponse in Hr.
  destruct (qm !! ri_questionId r); [|discriminate].
  injection Hr as <-. cbn. now rewrite I1, I2, I3.
Qed.

(** X5.  [submitQuizAttempt] never touches the quiz collection or the
    attempts already stored: either it throws and the attempt collection
    is as before, or it appends exactly one attempt, which carries the
    quiz id, the participant name and the completion time of the request
    and, in order, the question id, selected index and response time of
    every submitted response. *)
Theorem X5_submit_appends_one_attempt (id name : string)
    (responses : option (list ResponseInput)) (now : Z) (db : QuizDb) :
  quizzes (snd (submitQuizAttempt id name responses now db)) = quizzes db /\
  ((failed (fst (submitQuizAttempt id name responses now db)) = true /\
    attempts (snd (submitQuizAttempt id name responses now db)) = attempts db) \/
   (exists (a : QuizAttempt) (rs : list ResponseInput),
       responses = Some rs /\
       fst (submitQuizAttempt id name responses now db) = Ok a /\
       attempts (snd (submitQuizAttempt id name responses now db))
         = attempts db ++ [a] /\
       at_quizId a = id /\ at_participantName a = name /\
       at_completedAt a = now /\
       map qr_questionId (at_responses a) = map ri_questionId rs /\
       map qr_selectedAnswerIndex (at_responses a)
         = map ri_selectedAnswerIndex rs /\
       map qr_responseTimeSeconds (at_responses a)
         = map ri_responseTimeSeconds rs)).
Proof.
  destruct (submitQuizAttempt id name responses now db) as [[a|e] db'] eqn:H.
  - apply submitQuizAttempt_Ok_inv in H
      as (quiz & rs & scored & _ & _ & -> & Hs & _ & -> & H1 & H2 & H3 & H4 & _).
    cbn [fst snd quizzes attempts]. split; [reflexivity|]. right.
    exists a, rs. rewrite H3.
    destruct (scored_echo _ _ _ Hs) as (E1 & E2 & E3).
    repeat split; assumption.
  - apply submitQuizAttempt_Throw_unchanged in H. subst db'.
    split; [reflexivity|]. left. split; reflexivity.
Qed.

(** X6.  The order of the checks of [submitQuizAttempt]: a missing quiz
    gives the 404 "Quiz not found" whatever is submitted; for a visible
    quiz, missing responses give the 400 "Responses are required"; an
    empty array of responses is accepted and stored as an attempt without
    responses, with total 0 and percentage 0. *)
Theorem X6_submit_edge_cases (id name : string) (now : Z) (db : QuizDb) :
  (Quiz_findById id db = None ->
   forall responses,
     submitQuizAttempt id name responses now db
       = (Throw (mkAppError "Quiz not found" 404), db)) /\
  (forall quiz : Quiz,
      Quiz_findById id db = Some quiz ->
      quiz_isVisible quiz = true ->
      submitQuizAttempt id name None now db
        = (Throw (mkAppError "Responses are required" 400), db) /\
      exists a : QuizAttempt,
        submitQuizAttempt id name (Some []) now db
          = (Ok a, mkQuizDb (quizzes db) (attempts db ++ [a])) /\
        at_responses a = [] /\
        (at_totalMarks a == 0)%Q /\ (at_percentage a == 0)%Q).
Proof.
  split.
  - intros Hf responses. unfold submitQuizAttempt, bind, get, throw.
    now rewrite Hf.
  - intros quiz Hf Hv. split.
    + unfold submitQuizAttempt, bind, get, throw. now rewrite Hf, Hv.
    + rewrite (submitQuizAttempt_scored id name [] now db quiz [] Hf Hv eq_refl).
      cbv zeta. eexists. split; [reflexivity|].
      cbn [at_responses at_totalMarks at_percentage map].
      split; [reflexivity|]. split; [reflexivity|].
      destruct (Qlt_le_dec 0 (sumQ (map q_marks (quiz_questions quiz))));
        [|reflexivity].
      rewrite (Math_round_comp _ (inject_Z 0)).
      * rewrite Math_round_inject_Z. reflexivity.
      * change (sumQ []) with 0%Q. unfold Qdiv. ring.
Qed.

(** X7.  The [maxMarks] stored with an attempt is the [totalMarks]
    virtual of the quiz it belongs to. *)
Theorem X7_maxMarks_is_quiz_totalMarks (id name : string)
    (responses : option (list ResponseInput)) (now : Z) (db db' : QuizDb)
    (quiz : Quiz) (a : QuizAttempt) :
  Quiz_findById id db = Some quiz ->
  submitQuizAttempt id name responses now db = (Ok a, db') ->
  (at_maxMarks a == Quiz_totalMarks quiz)%Q.
Proof.
  intros Hf H.
  apply submitQuizAttempt_Ok_inv in H
    as (quiz' & rs & scored & Hf' & _ & _ & _ & _ & _ & _ & _ & _ & _ & _ & Hm & _).
  assert (quiz' = quiz) by congruence. subst quiz'.
  rewrite Hm. unfold Quiz_totalMarks.
  destruct (quiz_questions quiz); reflexivity.
Qed.

(* ================================================================== *)
(** ** [toggleVisibility] and [deleteQuiz] *)
(* ================================================================== *)

Lemma toggleVisibility_found (id : string) (isVisible : option bool)
    (db : QuizDb) (quiz : Quiz) :
  Quiz_findById id db = Some quiz ->
  toggleVisibility id isVisible db =
    let v := match isVisible with
             | Some b => b
             | None => negb (quiz_isVisible quiz)
             end in
    (Ok ("Quiz is now " +:+ (if v then "visible" else "hidden"),
         with_isVisible quiz v),
     mkQuizDb (<[id := with_isVisible quiz v]> (quizzes db)) (attempts db)).
Proof.
  intros Hf. unfold toggleVisibility, bind, get, ret, Quiz_save.
  rewrite Hf. destruct isVisible; reflexivity.
Qed.

Lemma with_isVisible_same (quiz : Quiz) :
  with_isVisible quiz (quiz_isVisible quiz) = quiz.
Proof. now destruct quiz. Qed.

(** X8.  [toggleVisibility] on a stored quiz changes nothing but the
    [isVisible] flag of that quiz: the flag becomes the value sent, or
    the negation of the stored flag when none is sent, and the message
    names the new state; title, description, questions, the other quizzes
    and all attempts stay as they were.  Toggling twice without a value
    restores the database. *)
Theorem X8_toggleVisibility_flips_flag_only (id : string) (db : QuizDb) (quiz : Quiz) :
  Quiz_findById id db = Some quiz ->
  (forall isVisible : option bool,
      exists (msg : string) (quiz' : Quiz) (db' : QuizDb),
        toggleVisibility id isVisible db = (Ok (msg, quiz'), db') /\
        Quiz_findById id db' = Some quiz' /\
        quiz_isVisible quiz'
          = match isVisible with
            | Some b => b
            | None => negb (quiz_isVisible quiz)
            end /\
        msg = (if quiz_isVisible quiz'
               then "Quiz is now visible" else "Quiz is now hidden") /\
        quiz_title quiz' = quiz_title quiz /\
        quiz_description quiz' = quiz_description quiz /\
        quiz_questions quiz' = quiz_questions quiz /\
        attempts db' = attempts db /\
        (forall other, other <> id ->
                       Quiz_findById other db' = Quiz_findById other db)) /\
  snd (toggleVisibility id None (snd (toggleVisibility id None db))) = db.
Proof.
  intros Hf. split.
  - intros isVisible. rewrite (toggleVisibility_found id isVisible db quiz Hf).
    cbv zeta. do 3 eexists. split; [reflexivity|].
    unfold Quiz_findById. cbn [quizzes attempts].
    split; [apply lookup_insert_eq|].
    split; [reflexivity|].
    split; [cbn [with_isVisible quiz_isVisible];
            now destruct (match isVisible with Some b => b | None => _ end)|].
    do 4 (split; [reflexivity|]).
    intros other Hne. now apply lookup_insert_ne.
  - rewrite (toggleVisibility_found id None db quiz Hf). cbv zeta. cbn [snd].
    rewrite (toggleVisibility_found id None _ (with_isVisible quiz (negb (quiz_isVisible quiz))));
      [|unfold Quiz_findById; cbn [quizzes]; apply lookup_insert_eq].
    cbv zeta. cbn [snd quizzes attempts].
    assert (E : with_isVisible (with_isVisible quiz (negb (quiz_isVisible quiz)))
                  (negb (quiz_isVisible
                           (with_isVisible quiz (negb (quiz_isVisible quiz)))))
                = quiz).
    { destruct quiz as [t d q v]. cbn. now rewrite negb_involutive. }
    rewrite E, insert_insert_eq, insert_id by exact Hf.
    now destruct db.
Qed.

(** X9.  Visibility decides whether attempts are accepted: after
    [toggleVisibility] has set a quiz to hidden every submission to it
    is refused with the 403 and stores nothing; after it has set the quiz
    to visible, a submission whose responses all name questions of the
    quiz is scored and stored. *)
Theorem X9_visibility_gates_attempts (id name : string) (now : Z)
    (db : QuizDb) (quiz : Quiz) :
  Quiz_findById id db = Some quiz ->
  (forall responses,
      let db1 := snd (toggleVisibility id (Some false) db) in
      submitQuizAttempt id name responses now db1
        = (Throw (mkAppError "This quiz is not available" 403), db1)) /\
  (forall responses,
      Forall (fun r => ri_questionId r ∈ map q_id (quiz_questions quiz)) responses ->
      let db2 := snd (toggleVisibility id (Some true) db) in
      exists a : QuizAttempt,
        submitQuizAttempt id name (Some responses) now db2
          = (Ok a, mkQuizDb (quizzes db2) (attempts db ++ [a]))).
Proof.
  intros Hf. split.
  - intros responses.
    rewrite (toggleVisibility_found id (Some false) db quiz Hf). cbv zeta. cbn [snd].
    unfold submitQuizAttempt, bind, get, throw, Quiz_findById. cbn [quizzes].
    now rewrite lookup_insert_eq.
  - intros responses Hknown.
    rewrite (toggleVisibility_found id (Some true) db quiz Hf). cbv zeta. cbn [snd].
    set (db2 := mkQuizDb _ _).
    assert (Hf2 : Quiz_findById id db2 = Some (with_isVisible quiz true))
      by (unfold Quiz_findById, db2; cbn [quizzes]; apply lookup_insert_eq).
    destruct (mapThrow_total
                (scoreResponse (questionMap_of (quiz_questions quiz))) responses)
      as [scored Hs].
    { eapply Forall_impl; [exact Hknown|].
      intros r Hr. now apply scoreResponse_known. }
    rewrite (submitQuizAttempt_scored id name responses now db2
               (with_isVisible quiz true) scored Hf2 eq_refl Hs).
    cbv zeta. eexists. reflexivity.
Qed.

Lemma deleteQuiz_found (id : string) (db : QuizDb) (quiz : Quiz) :
  Quiz_findById id db = Some quiz ->
  deleteQuiz id db =
    (Ok tt, mkQuizDb (delete id (quizzes db))
              (filter (fun a => at_quizId a <> id) (attempts db))).
Proof.
  intros Hf. unfold deleteQuiz, bind, Quiz_findByIdAndDelete.
  unfold Quiz_findById in Hf. now rewrite Hf.
Qed.

(** X10.  [deleteQuiz] of a stored quiz removes the quiz and every
    attempt made on it, and nothing else: afterwards no attempt carries
    its id, the attempts of the other quizzes are the same in the same
    order, the other quizzes are as before, and [getQuizById] and
    [submitQuizAttempt] answer 404 for the deleted id. *)
Theorem X10_deleteQuiz_cascades (id : string) (db : QuizDb) (quiz : Quiz) :
  Quiz_findById id db = Some quiz ->
  exists db' : QuizDb,
    deleteQuiz id db = (Ok tt, db') /\
    Forall (fun a => at_quizId a <> id) (attempts db') /\
    attempts db' = filter (fun a => at_quizId a <> id) (attempts db) /\
    (forall other, other <> id ->
       filter (fun a => at_quizId a = other) (attempts db')
         = filter (fun a => at_quizId a = other) (attempts db)) /\
    (forall other, other <> id ->
       Quiz_findById other db' = Quiz_findById other db) /\
    getQuizById id db' = (Throw (mkAppError "Quiz not found" 404), db') /\
    (forall name responses now,
        submitQuizAttempt id name responses now db'
          = (Throw (mkAppError "Quiz not found" 404), db')).
Proof.
  intros Hf. rewrite (deleteQuiz_found id db quiz Hf).
  eexists. split; [reflexivity|]. cbn [attempts].
  split.
  { apply Forall_forall. intros a Ha.
    now apply list_elem_of_filter in Ha as [Ha _]. }
  split; [reflexivity|].
  split.
  { intros other Hne. rewrite list_filter_filter.
    apply list_filter_iff. intros a. split; [now intros [H _]|].
    intros H. split; [exact H | congruence]. }
  split.
  { intros other Hne. unfold Quiz_findById. cbn [quizzes].
    now apply lookup_delete_ne. }
  split.
  - unfold getQuizById, bind, get, throw, Quiz_findById. cbn [quizzes].
    now rewrite lookup_delete_eq.
  - intros name responses now.
    unfold submitQuizAttempt, bind, get, throw, Quiz_findById. cbn [quizzes].
    now rewrite lookup_delete_eq.
Qed.

(** X11.  [deleteQuiz] of an id that is not stored answers 404 and
    deletes nothing, not even attempts that carry that id. *)
Theorem X11_deleteQuiz_missing (id : string) (db : QuizDb) :
  Quiz_findById id db = None ->
  deleteQuiz id db = (Throw (mkAppError "Quiz not found" 404), db).
Proof.
  intros Hf. unfold deleteQuiz, bind, Quiz_findByIdAndDelete, throw.
  unfold Quiz_findById in Hf. rewrite Hf, delete_id by exact Hf.
  now destruct db.
Qed.

(* ================================================================== *)
(** ** Pagination *)
(* ================================================================== *)

Section Paging.

Lemma pagesOf_bounds (total limit : Z) :
  (1 <= limit)%Z ->
  ((pagesOf total limit - 1) * limit < total)%Z /\
  (total <= pagesOf total limit * limit)%Z.
Proof.
  intros Hl. unfold pagesOf, Math_ceil.
  set (x := (inject_Z total / inject_Z limit)%Q).
  assert (Hlq : (0 < inject_Z limit)%Q).
  { change 0%Q with (inject_Z 0). rewrite <- Zlt_Qlt. lia. }
  assert (Ex : (x * inject_Z limit == inject_Z total)%Q).
  { unfold x. field. intros E. rewrite E in Hlq. now apply Qlt_irrefl in Hlq. }
  split.
  - rewrite Zlt_Qlt, inject_Z_mult, <- Ex.
    apply Qmult_lt_compat_r; [exact Hlq|]. apply Qceiling_lt.
  - rewrite Zle_Qle, inject_Z_mult, <- Ex.
    apply Qmult_le_compat_r; [apply Qle_ceiling | now apply Qlt_le_weak].
Qed.

Lemma skip_limit_length {A} (skip limit : Z) (docs : list A) :
  length (skip_limit skip limit docs) <= Z.to_nat limit.
Proof. unfold skip_limit. rewrite length_take. lia. Qed.

Lemma skip_limit_elem_of {A} (skip limit : Z) (docs : list A) (x : A) :
  x ∈ skip_limit skip limit docs -> x ∈ docs.
Proof.
  unfold skip_limit. intros H.
  apply list_elem_of_lookup in H as [i Hi].
  apply lookup_take_Some in Hi as [Hi _].
  rewrite lookup_drop in Hi. eapply list_elem_of_lookup_2, Hi.
Qed.

Lemma allPages_take {A} (limit : Z) (n : nat) (docs : list A) :
  (0 <= limit)%Z ->
  allPages limit n docs = take (n * Z.to_nat limit) docs.
Proof.
  intros Hl. induction n as [|n IH]; [reflexivity|].
  cbn [allPages]. rewrite IH. unfold skip_limit.
  replace (Z.to_nat ((Z.of_nat (S n) - 1) * limit)) with (n * Z.to_nat limit)
    by (rewrite Z2Nat.inj_mul by lia; f_equal; lia).
  rewrite take_take_drop. f_equal. lia.
Qed.

Lemma allPages_all {A} (limit : Z) (docs : list A) :
  (1 <= limit)%Z ->
  allPages limit (Z.to_nat (pagesOf (Z.of_nat (length docs)) limit)) docs = docs.
Proof.
  intros Hl. rewrite allPages_take by lia. apply take_ge.
  destruct (pagesOf_bounds (Z.of_nat (length docs)) limit Hl) as [_ H].
  assert (0 <= pagesOf (Z.of_nat (length docs)) limit)%Z by nia.
  nia.
Qed.

Lemma skip_limit_beyond {A} (limit p : Z) (docs : list A) :
  (1 <= limit)%Z ->
  (pagesOf (Z.of_nat (length docs)) limit < p)%Z ->
  skip_limit ((p - 1) * limit) limit docs = [].
Proof.
  intros Hl Hp. unfold skip_limit.
  destruct (pagesOf_bounds (Z.of_nat (length docs)) limit Hl) as [_ H].
  rewrite drop_ge; [apply take_nil|]. nia.
Qed.

End Paging.

(** X12.  Paging loses nothing and repeats nothing: for a page size of at
    least 1, [Math.ceil(total / limit)] is the least number of pages that
    hold [total] documents, every page has at most [limit] documents, the
    pages 1 to [pages] put one after the other are exactly the sorted
    result, and every later page is empty. *)
Theorem X12_pages_cover_the_result {A : Type} (limit : Z) (docs : list A) :
  (1 <= limit)%Z ->
  let total := Z.of_nat (length docs) in
  let pages := pagesOf total limit in
  ((pages - 1) * limit < total)%Z /\
  (total <= pages * limit)%Z /\
  (forall p, length (skip_limit ((p - 1) * limit) limit docs) <= Z.to_nat limit) /\
  allPages limit (Z.to_nat pages) docs = docs /\
  (forall p, (pages < p)%Z -> skip_limit ((p - 1) * limit) limit docs = []).
Proof.
  intros Hl total pages.
  destruct (pagesOf_bounds total limit Hl) as [H1 H2].
  split; [exact H1|]. split; [exact H2|].
  split; [intros p; apply skip_limit_length|].
  split; [now apply allPages_all|].
  intros p Hp. now apply skip_limit_beyond.
Qed.

Lemma removeFirst_absent (c : ascii) (s : string) :
  c ∉ String.list_ascii_of_string s -> removeFirst c s = s.
Proof.
  induction s as [|a s IH]; [reflexivity|].
  cbn. intros H. apply not_elem_of_cons in H as [Hne H].
  destruct (Ascii.eqb_spec a c) as [E|_]; [congruence|].
  f_equal. now apply IH.
Qed.

(** X13.  The [sort] parameter of the listing: without it, or with an
    empty one, the order is newest first; a leading dash asks for the
    rest of the parameter in descending order; a parameter without a
    dash asks for that field in ascending order. *)
Theorem X13_sort_parameter :
  sortSpec None = ("createdAt", (-1)%Z) /\
  sortSpec (Some EmptyString) = ("createdAt", (-1)%Z) /\
  (forall field : string,
      sortSpec (Some (String "-" field)) = (field, (-1)%Z)) /\
  (forall s : string,
      s <> EmptyString -> "-"%char ∉ String.list_ascii_of_string s ->
      sortSpec (Some s) = (s, 1%Z)).
Proof.
  split; [reflexivity|]. split; [reflexivity|]. split.
  - intros field. reflexivity.
  - intros s Hne Hdash. unfold sortSpec.
    destruct (decide (s = EmptyString)) as [E|_]; [contradiction|].
    rewrite (removeFirst_absent _ _ Hdash).
    destruct s as [|a s]; [contradiction|].
    cbn in Hdash. apply not_elem_of_cons in Hdash as [Hne' _].
    cbn. destruct (Ascii.eqb_spec a "-"); [congruence | reflexivity].
Qed.

(* ================================================================== *)
(** ** The listing endpoints *)
(* ================================================================== *)

Section Listings.

Variable searchMatches : string -> Quiz -> bool.
Variable sortQuizzes : string -> Z -> list (string * Quiz) -> list (string * Quiz).
Variable sortAttempts : string -> Z -> list QuizAttempt -> list QuizAttempt.

(** Sorting returns the documents it is given, in some order. *)
Hypothesis sortQuizzes_perm : forall field order docs,
    sortQuizzes field order docs ≡ₚ docs.
Hypothesis sortAttempts_perm : forall field order docs,
    sortAttempts field order docs ≡ₚ docs.

Lemma getAllQuizzes_unfold (query : ListQuery) (db : QuizDb) :
  getAllQuizzes searchMatches sortQuizzes query db =
    let page := parsedOr (qy_page query) 1 in
    let limit := parsedOr (qy_limit query) 10 in
    let matching :=
      List.filter (listFilter searchMatches query) (map_to_list (quizzes db)) in
    let total := Z.of_nat (length matching) in
    (Ok (getAllQuizzes_quizzes
           (skip_limit ((page - 1) * limit) limit
              (sortQuizzes (fst (sortSpec (qy_sort query)))
                 (snd (sortSpec (qy_sort query))) matching)),
         mkPagination page limit total (pagesOf total limit)),
     db).
Proof.
  unfold getAllQuizzes, bind, get, ret.
  now destruct (sortSpec (qy_sort query)).
Qed.

(** X14.  For a page and a limit of at least 1, [getAllQuizzes] answers
    and leaves the database as it is.  The page has at most [limit]
    entries; each entry is the projection of a stored quiz that passes
    the filter of the query, so that unless [includeHidden] is the string
    [true] only visible quizzes are listed; [total] counts all quizzes
    that pass the filter, whatever the page. *)
Theorem X14_getAllQuizzes_lists_matching_quizzes (query : ListQuery) (db : QuizDb) :
  (1 <= parsedOr (qy_page query) 1)%Z ->
  (1 <= parsedOr (qy_limit query) 10)%Z ->
  exists (listed : list ListedQuiz) (pg : Pagination),
    getAllQuizzes searchMatches sortQuizzes query db = (Ok (listed, pg), db) /\
    pg_page pg = parsedOr (qy_page query) 1 /\
    pg_limit pg = parsedOr (qy_limit query) 10 /\
    pg_total pg
      = Z.of_nat (length (List.filter (listFilter searchMatches query)
                            (map_to_list (quizzes db)))) /\
    pg_pages pg = pagesOf (pg_total pg) (pg_limit pg) /\
    length listed <= Z.to_nat (pg_limit pg) /\
    (forall l, l ∈ listed ->
       exists quiz,
         quizzes db !! l_id l = Some quiz /\
         l = select_without_isCorrect (l_id l, quiz) /\
         listFilter searchMatches query (l_id l, quiz) = true) /\
    (qy_includeHidden query <> Some "true" ->
     Forall (fun l => l_isVisible l = true) listed).
Proof.
  intros _ _. rewrite getAllQuizzes_unfold. cbv zeta.
  set (matching := List.filter (listFilter searchMatches query)
                     (map_to_list (quizzes db))).
  set (sorted := sortQuizzes _ _ matching).
  set (page := parsedOr (qy_page query) 1).
  set (limit := parsedOr (qy_limit query) 10).
  assert (Hin : forall l,
             l ∈ getAllQuizzes_quizzes (skip_limit ((page - 1) * limit) limit sorted) ->
             exists quiz,
               quizzes db !! l_id l = Some quiz /\
               l = select_without_isCorrect (l_id l, quiz) /\
               listFilter searchMatches query (l_id l, quiz) = true).
  { intros l Hl. unfold getAllQuizzes_quizzes in Hl.
    apply list_elem_of_fmap in Hl as ([i quiz] & -> & Hdoc).
    apply skip_limit_elem_of in Hdoc. unfold sorted in Hdoc.
    rewrite sortQuizzes_perm in Hdoc. unfold matching in Hdoc.
    apply list_elem_of_In, filter_In in Hdoc as [Hdoc Hf].
    apply list_elem_of_In, elem_of_map_to_list in Hdoc.
    exists quiz. cbn. auto. }
  do 2 eexists. split; [reflexivity|]. cbn [pg_page pg_limit pg_total pg_pages].
  do 4 (split; [reflexivity|]).
  split.
  { unfold getAllQuizzes_quizzes. rewrite length_map. apply skip_limit_length. }
  split; [exact Hin|].
  intros Hhidden. apply Forall_forall. intros l Hl.
  destruct (Hin l Hl) as (quiz & _ & -> & Hf).
  unfold listFilter in Hf. cbn [snd] in Hf.
  destruct (decide (qy_includeHidden query = Some "true")); [contradiction|].
  now apply andb_true_iff in Hf as [Hv _].
Qed.

Lemma getQuizAttempts_found (id : string) (page limit : option Z)
    (sort : option string) (db : QuizDb) (quiz : Quiz) :
  Quiz_findById id db = Some quiz ->
  getQuizAttempts sortAttempts id page limit sort db =
    let matching :=
      List.filter (fun a => bool_decide (at_quizId a = id)) (attempts db) in
    let total := Z.of_nat (length matching) in
    (Ok (skip_limit ((parsedOr page 1 - 1) * parsedOr limit 10) (parsedOr limit 10)
           (sortAttempts
              (if decide (sort = Some "recent") then "completedAt" else "totalMarks")
              (-1) matching),
         mkPagination (parsedOr page 1) (parsedOr limit 10) total
           (pagesOf total (parsedOr limit 10))),
     db).
Proof.
  intros Hf. unfold getQuizAttempts, bind, get, ret. now rewrite Hf.
Qed.


(** X16.  A stored attempt shows up in the count of its quiz: after a
    successful [submitQuizAttempt] on quiz [id], the [total] that
    [getQuizAttempts] reports is one more for [id] and unchanged for
    every other quiz (for a page and a limit of at least 1). *)
Theorem X16_submit_then_count (id name : string)
    (responses : option (list ResponseInput)) (now : Z) (db db' : QuizDb)
    (a : QuizAttempt) (id2 : string) (quiz2 : Quiz)
    (page limit : option Z) (sort : option string) :
  submitQuizAttempt id name responses now db = (Ok a, db') ->
  Quiz_findById id2 db = Some quiz2 ->
  (1 <= parsedOr page 1)%Z ->
  (1 <= parsedOr limit 10)%Z ->
  exists (l1 l2 : list QuizAttempt) (pg1 pg2 : Pagination),
    getQuizAttempts sortAttempts id2 page limit sort db = (Ok (l1, pg1), db) /\
    getQuizAttempts sortAttempts id2 page limit sort db' = (Ok (l2, pg2), db') /\
    pg_total pg2 = (pg_total pg1 + (if decide (id2 = id) then 1 else 0))%Z.
Proof.
  intros H Hf2 _ _.
  apply submitQuizAttempt_Ok_inv in H
    as (quiz & rs & scored & _ & _ & _ & _ & _ & -> & Hid & _).
  rewrite (getQuizAttempts_found id2 page limit sort db quiz2 Hf2).
  rewrite (getQuizAttempts_found id2 page limit sort
             (mkQuizDb (quizzes db) (attempts db ++ [a])) quiz2 Hf2).
  cbv zeta. do 4 eexists. split; [reflexivity|]. split; [reflexivity|].
  cbn [pg_total attempts]. rewrite List.filter_app, length_app. cbn [List.filter].
  rewrite Hid.
  destruct (decide (id2 = id)) as [->|Hne].
  - rewrite bool_decide_eq_true_2 by reflexivity. cbn [length]. lia.
  - rewrite bool_decide_eq_false_2 by congruence. cbn [length]. lia.
Qed.

End Listings.

(* ================================================================== *)
(** ** Invariants of the team collection *)
(* ================================================================== *)

Lemma team_step_name (r : Request) (teamId : string)
    (team team' : CompetitionTeam) :
  team_step r teamId team team' -> t_name team' = t_name team.
Proof.
  intros [->|H]; [reflexivity|].
  destruct r as [students newId name memberIds leaderId
                | status studentId tid now | studentId tid | studentId tid
                | studentId tid memberId].
  - contradiction.
  - now destruct H as (_ & pre & m & post & _ & ->).
  - now destruct H as (_ & ->).
  - now destruct H as (_ & ->).
  - now destruct H as (_ & ->).
Qed.

(** A team of the collection after a request either was there before,
    under the same name, or is new and has a name that no team had. *)
Lemma serve_lookup_name (r : Request) (teams : gmap string CompetitionTeam)
    (i : string) (t' : CompetitionTeam) :
  serve r teams !! i = Some t' ->
  (exists t, teams !! i = Some t /\ t_name t' = t_name t) \/
  (teams !! i = None /\
   (exists students name memberIds leaderId,
       r = ReqCreateTeam students i name memberIds leaderId) /\
   forall j t, teams !! j = Some t -> t_name t <> t_name t').
Proof.
  intros H. destruct (teams !! i) as [t|] eqn:Hi.
  - left. exists t. split; [reflexivity|].
    destruct (serve_existing_team r teams i t Hi) as (t1 & H1 & Hstep).
    assert (t1 = t') by congruence. subst t1.
    now apply (team_step_name r i).
  - right. split; [reflexivity|].
    destruct (serve_new_team r teams i t' Hi H)
      as (students & name & memberIds & leaderId & leader & -> & Hl & ->).
    split; [eauto|].
    cbn [serve] in H. unfold createTeam, Student_findById at 1 in H.
    rewrite Hl in H. unfold bind, get in H.
    destruct (CompetitionTeam_existsName name teams) eqn:Hn.
    + cbn in H. congruence.
    + unfold CompetitionTeam_existsName in Hn.
      apply bool_decide_eq_false in Hn.
      intros j t Hj E. apply Hn. exists j, t. split; [exact Hj|].
      rewrite E. reflexivity.
Qed.

Lemma serve_names_unique (r : Request) (teams : gmap string CompetitionTeam) :
  names_unique teams -> names_unique (serve r teams).
Proof.
  intros J i j ti tj Hi Hj E.
  destruct (serve_lookup_name r teams i ti Hi) as [(t1 & H1 & E1)|(N1 & C1 & F1)];
    destruct (serve_lookup_name r teams j tj Hj) as [(t2 & H2 & E2)|(N2 & C2 & F2)].
  - apply (J i j t1 t2 H1 H2). congruence.
  - destruct (F2 i t1 H1). congruence.
  - destruct (F1 j t2 H2). congruence.
  - destruct C1 as (s1 & n1 & m1 & l1 & ->).
    destruct C2 as (s2 & n2 & m2 & l2 & [= _ ->]). reflexivity.
Qed.

(** X17.  Team names are unique: after any history of requests on the
    empty collection no two stored teams have the same name. *)
Theorem X17_team_names_stay_unique (rs : list Request) :
  names_unique (serveAll rs ∅).
Proof.
  assert (H : forall teams, names_unique teams -> names_unique (serveAll rs teams)).
  { induction rs as [|r rs IH]; intros teams J; [exact J|].
    cbn. apply IH. now apply serve_names_unique. }
  apply H. intros i j ti tj Hi. rewrite lookup_empty in Hi. discriminate.
Qed.

Lemma team_step_approved_have_joined (r : Request) (teamId : string)
    (team team' : CompetitionTeam) :
  approved_have_joined team -> team_step r teamId team team' ->
  approved_have_joined team'.
Proof.
  intros I [->|H]; [exact I|]. unfold approved_have_joined in *.
  destruct r as [students newId name memberIds leaderId
                | status studentId tid now | studentId tid | studentId tid
                | studentId tid memberId].
  - contradiction.
  - destruct H as (_ & pre & m & post & Hm & ->).
    rewrite Hm in I. apply Forall_app in I as [Ipre I].
    apply Forall_cons in I as [_ Ipost].
    unfold after_response. cbn [t_members].
    apply Forall_app. split; [exact Ipre|].
    apply Forall_cons. split; [|exact Ipost].
    unfold responded. cbn [m_status m_joinedAt].
    destruct (decide (status = "approved")); [eauto | discriminate].
  - destruct H as (_ & ->). unfold without_member, with_members. cbn [t_members].
    apply Forall_forall. intros m Hm. apply list_elem_of_filter in Hm as [_ Hm].
    exact (proj1 (Forall_forall _ _) I m Hm).
  - destruct H as (_ & ->). exact I.
  - destruct H as (_ & ->). unfold without_member, with_members. cbn [t_members].
    apply Forall_forall. intros m Hm. apply list_elem_of_filter in Hm as [_ Hm].
    exact (proj1 (Forall_forall _ _) I m Hm).
Qed.

(** X18.  In every team reached by a history of requests, every member
    whose status is [approved] has a [joinedAt] date. *)
Theorem X18_approved_members_have_joined (rs : list Request) (teamId : string)
    (team : CompetitionTeam) :
  serveAll rs ∅ !! teamId = Some team ->
  approved_have_joined team.
Proof.
  intros Ht.
  assert (Hinv : map_Forall (fun _ team => approved_have_joined team)
                   (serveAll rs ∅)).
  { apply (serveAll_invariant (fun _ => True) approved_have_joined).
    - intros students newId name memberIds leaderId leader _ _.
      unfold approved_have_joined, created_team. cbn [t_members].
      eapply Forall_impl; [apply invited_pending|].
      intros m [Hs _] Ha. rewrite Hs in Ha. discriminate.
    - intros r tid t0 t1 _ I Hstep.
      now apply (team_step_approved_have_joined r tid t0).
    - apply Forall_forall. auto.
    - apply map_Forall_empty. }
  exact (Hinv teamId team Ht).
Qed.

Lemma getTeamById_found (teamId : string) (teams : gmap string CompetitionTeam)
    (team : CompetitionTeam) :
  teams !! teamId = Some team -> getTeamById teamId teams = (Ok team, teams).
Proof. intros H. unfold getTeamById, bind, get, ret. now rewrite H. Qed.

(** X19.  A team is never removed and never taken over: after any
    history of requests a stored team can still be fetched with
    [getTeamById] (a disbanded one too), it has the name and the leader
    it had, and its members are among those it had: nobody joins a team
    after it has been created. *)
Theorem X19_teams_persist (rs : list Request)
    (teams : gmap string CompetitionTeam) (teamId : string) (team : CompetitionTeam) :
  teams !! teamId = Some team ->
  exists team' : CompetitionTeam,
    getTeamById teamId (serveAll rs teams) = (Ok team', serveAll rs teams) /\
    t_name team' = t_name team /\
    t_leaderId team' = t_leaderId team /\
    t_leaderName team' = t_leaderName team /\
    t_leaderEmail team' = t_leaderEmail team /\
    (forall id, id ∈ member_ids team' -> id ∈ member_ids team).
Proof.
  revert teams team. induction rs as [|r rs IH]; intros teams team Ht.
  - exists team. split; [now apply getTeamById_found|]. repeat split. auto.
  - destruct (serve_existing_team r teams teamId team Ht) as (t1 & H1 & Hstep).
    destruct (IH (serve r teams) t1 H1) as (team' & Hg & En & E1 & E2 & E3 & Hsub).
    pose proof (team_step_name r teamId team t1 Hstep) as En1.
    apply team_step_leader in Hstep as (L1 & L2 & L3 & Hsub1).
    exists team'. cbn. split; [exact Hg|].
    repeat split; try congruence. auto.
Qed.

(* ================================================================== *)
(** ** Leaving, removing, disbanding: refusals and repetitions *)
(* ================================================================== *)

Lemma without_member_twice (studentId : string) (team : CompetitionTeam) :
  without_member studentId (without_member studentId team)
    = without_member studentId team.
Proof.
  unfold without_member, with_members.
  cbn [t_name t_leaderId t_leaderName t_leaderEmail t_members t_status].
  f_equal. rewrite list_filter_filter. apply list_filter_iff.
  intros m. tauto.
Qed.

Lemma without_member_not_member (studentId : string) (team : CompetitionTeam) :
  studentId ∉ member_ids (without_member studentId team).
Proof. apply (without_member_removed studentId team). Qed.

(** X20.  Leaving is final and can be repeated: once a student has left
    a team (or has been removed from it by the leader), an answer of that
    student to the invitation is refused with the 400 "You are not
    invited to this team" and changes nothing, and leaving again succeeds
    without changing anything. *)
Theorem X20_after_leaving (status studentId teamId : string) (now : Z)
    (teams : gmap string CompetitionTeam) (team : CompetitionTeam) :
  teams !! teamId = Some team ->
  t_leaderId team <> studentId ->
  status = "approved" \/ status = "rejected" ->
  let left := snd (leaveTeam studentId teamId teams) in
  let removed := snd (removeMember (t_leaderId team) teamId studentId teams) in
  left = removed /\
  respondToInvitation status studentId teamId now left
    = (Throw (mkAppError "You are not invited to this team" 400), left) /\
  leaveTeam studentId teamId left = (Ok tt, left).
Proof.
  intros Ht Hl Hs.
  rewrite (leaveTeam_Ok studentId teamId teams team Ht Hl).
  rewrite (removeMember_Ok teamId studentId teams team Ht).
  cbv zeta. cbn [snd].
  assert (Hnew : (<[teamId := without_member studentId team]> teams) !! teamId
                 = Some (without_member studentId team))
    by apply lookup_insert_eq.
  split; [reflexivity|]. split.
  - apply (respondToInvitation_not_invited _ _ _ _ _ _ Hs Hnew).
    apply without_member_not_member.
  - rewrite (leaveTeam_Ok studentId teamId _ _ Hnew Hl).
    now rewrite without_member_twice, insert_insert_eq.
Qed.

(** X21.  Only the leader disbands a team or removes members: for anyone
    else [disbandTeam] and [removeMember] answer 403 and change nothing.
    For the leader [disbandTeam] stores the team with status [disbanded]
    and everything else as it was, and disbanding again changes nothing
    more. *)
Theorem X21_leader_only_operations (teamId : string)
    (teams : gmap string CompetitionTeam) (team : CompetitionTeam) :
  teams !! teamId = Some team ->
  (forall studentId memberId : string,
      studentId <> t_leaderId team ->
      disbandTeam studentId teamId teams
        = (Throw (mkAppError "Only the team leader can disband the team" 403),
           teams) /\
      removeMember studentId teamId memberId teams
        = (Throw (mkAppError "Only the team leader can remove members" 403),
           teams)) /\
  disbandTeam (t_leaderId team) teamId teams
    = (Ok tt, <[teamId := mkTeam (t_name team) (t_leaderId team) (t_leaderName team)
                            (t_leaderEmail team) (t_members team)
                            TeamStatus.disbanded]> teams) /\
  disbandTeam (t_leaderId team) teamId
    (snd (disbandTeam (t_leaderId team) teamId teams))
    = (Ok tt, snd (disbandTeam (t_leaderId team) teamId teams)).
Proof.
  intros Ht.
  assert (Hd : forall ts t, ts !! teamId = Some t ->
                 disbandTeam (t_leaderId t) teamId ts
                 = (Ok tt, <[teamId := with_status t TeamStatus.disbanded]> ts)).
  { intros ts t H. unfold disbandTeam, bind, get. rewrite H.
    destruct (decide (t_leaderId t <> t_leaderId t)); [contradiction|reflexivity]. }
  split; [|split].
  - intros studentId memberId Hne. split.
    + unfold disbandTeam, bind, get, throw. rewrite Ht.
      destruct (decide (t_leaderId team <> studentId)) as [_|N];
        [reflexivity | destruct N; congruence].
    + unfold removeMember, bind, get, throw. rewrite Ht.
      destruct (decide (t_leaderId team <> studentId)) as [_|N];
        [reflexivity | destruct N; congruence].
  - now rewrite (Hd teams team Ht).
  - rewrite (Hd teams team Ht). cbn [snd].
    rewrite (Hd _ (with_status team TeamStatus.disbanded)
               (lookup_insert_eq _ _ _)).
    now rewrite insert_insert_eq.
Qed.

(** X22.  [respondToInvitation] checks the status before anything else:
    with a status other than [approved] and [rejected] it answers the 400
    "Invalid status. Must be approved or rejected" and changes nothing,
    whether or not the team exists or the student is invited. *)
Theorem X22_invalid_status_refused_first (status studentId teamId : string)
    (now : Z) (teams : gmap string CompetitionTeam) :
  status <> "approved" ->
  status <> "rejected" ->
  respondToInvitation status studentId teamId now teams
    = (Throw (mkAppError "Invalid status. Must be approved or rejected" 400),
       teams).
Proof.
  intros H1 H2. unfold respondToInvitation.
  destruct (negb (bool_decide (status ∈ ["approved"; "rejected"]))) eqn:E;
    [reflexivity|].
  apply status_check_inv in E as [E|E]; contradiction.
Qed.

(** X23.  What [createTeam] refuses: a leader who is not in the student
    directory gets the 404 "Student not found", also when the name is
    taken; with a known leader, a name that a stored team already has
    gets the 400 "A team with this name already exists".  Neither stores
    anything. *)
Theorem X23_createTeam_refusals (students : gmap string Student)
    (newId name : string) (memberIds : option (list string)) (leaderId : string)
    (teams : gmap string CompetitionTeam) :
  (students !! leaderId = None ->
   createTeam students newId name memberIds leaderId teams
     = (Throw (mkAppError "Student not found" 404), teams)) /\
  (forall (leader : Student) (i : string) (team : CompetitionTeam),
      students !! leaderId = Some leader ->
      teams !! i = Some team ->
      t_name team = name ->
      createTeam students newId name memberIds leaderId teams
        = (Throw (mkAppError "A team with this name already exists" 400), teams)).
Proof.
  split.
  - intros Hl. unfold createTeam, Student_findById at 1. now rewrite Hl.
  - intros leader i team Hl Hi Hn.
    unfold createTeam, Student_findById at 1. rewrite Hl. unfold bind, get.
    assert (E : CompetitionTeam_existsName name teams = true).
    { apply bool_decide_eq_true. exists i, team. now split. }
    now rewrite E.
Qed.

(* ================================================================== *)
(** ** The error middleware *)
(* ================================================================== *)

Lemma errorHandler_error_operational (err : Thrown) :
  constructed err -> ao_isOperational (errorHandler_error err) = true.
Proof.
  destruct err as [e|name message code11000 path value quoted errors]; cbn.
  - auto.
  - intros _. repeat case_decide; destruct code11000; reflexivity.
Qed.

(** X24.  Every error leaves [errorHandler] with the status, message and
    code of the [AppError] it is or has been turned into, in production
    as in development (where the body has the stack as well): the
    production answer "Something went wrong. Please try again later." is
    never sent, because every [AppError] is operational. *)
Theorem X24_errorHandler_sends_the_error (development : bool) (err : Thrown) :
  constructed err ->
  errorHandler development err
    = mkErrorResponse (ao_statusCode (errorHandler_error err))
        (ao_message (errorHandler_error err))
        (ao_code (errorHandler_error err))
        development
        (ao_errors (errorHandler_error err)).
Proof.
  intros Hc. unfold errorHandler, sendErrorDev, sendErrorProd.
  rewrite (errorHandler_error_operational err Hc).
  now destruct development.
Qed.

(** X25.  An error that is neither an [AppError] nor one of the errors
    the middleware recognises (by the names [CastError],
    [ValidationError], [JsonWebTokenError], [TokenExpiredError] or by the
    code 11000) is answered with status 500 and its own message,
    "Internal Server Error" when it has none, in production too. *)
Theorem X25_unknown_error_message_is_sent (development : bool)
    (name message path value : string) (quoted : option string)
    (errors : list (string * string)) :
  name <> "CastError" -> name <> "ValidationError" ->
  name <> "JsonWebTokenError" -> name <> "TokenExpiredError" ->
  errorHandler development
    (ThrownOther name message false path value quoted errors)
    = mkErrorResponse 500
        (if decide (message = EmptyString) then "Internal Server Error"
         else message)
        None development None.
Proof.
  intros H1 H2 H3 H4.
  unfold errorHandler, sendErrorDev, sendErrorProd, errorHandler_error.
  cbv zeta. repeat case_decide; try contradiction;
    now destruct development.
Qed.

(* ================================================================== *)
(** ** From invitation to activation *)
(* ================================================================== *)

Lemma respond_approved_step (id tid : string) (now : Z)
    (teams : gmap string CompetitionTeam) (team : CompetitionTeam) :
  teams !! tid = Some team ->
  NoDup (member_ids team) ->
  id ∈ member_ids team ->
  exists team',
    serve (ReqRespond "approved" id tid now) teams !! tid = Some team' /\
    member_ids team' = member_ids team /\
    (forall S : list string,
        Forall (fun m => m_studentId m ∈ S ->
                         m_status m = TeamMemberStatus.approved) (t_members team) ->
        Forall (fun m => m_studentId m ∈ id :: S ->
                         m_status m = TeamMemberStatus.approved) (t_members team')) /\
    (Forall (fun m => m_status m = TeamMemberStatus.approved) (t_members team') ->
     t_status team' = TeamStatus.active).
Proof.
  intros Ht Hnd Hin. unfold member_ids in Hnd, Hin.
  apply list_elem_of_fmap in Hin as (m & Hid & Hm).
  apply list_elem_of_split in Hm as (pre & post & Hsplit).
  rewrite Hsplit in Hnd. change (NoDup (map m_studentId (pre ++ m :: post))) in Hnd.
  rewrite map_app in Hnd. cbn [map] in Hnd.
  apply NoDup_app in Hnd as (_ & Hpre & Hpost).
  apply NoDup_cons in Hpost as [Hpost _].
  assert (Hpre' : id ∉ map m_studentId pre).
  { intros H. apply (Hpre id H). rewrite Hid. apply list_elem_of_here. }
  cbn [serve].
  rewrite (respondToInvitation_Ok "approved" id tid now teams team pre m post
             (or_introl eq_refl) Ht Hsplit Hpre' (eq_sym Hid)).
  cbn [snd]. rewrite lookup_insert_eq.
  eexists. split; [reflexivity|].
  split; [now apply after_response_member_ids|].
  split.
  - intros S HS. rewrite Hsplit in HS.
    apply Forall_app in HS as [HSpre HS]. apply Forall_cons in HS as [_ HSpost].
    unfold after_response. cbn [t_members].
    apply Forall_app. split; [|apply Forall_cons; split].
    + apply Forall_forall. intros x Hx Hxin.
      apply elem_of_cons in Hxin as [E|Hxin].
      * destruct Hpre'. rewrite <- E. now apply (list_elem_of_fmap_2 m_studentId).
      * exact (proj1 (Forall_forall _ _) HSpre x Hx Hxin).
    + intros _. reflexivity.
    + apply Forall_forall. intros x Hx Hxin.
      apply elem_of_cons in Hxin as [E|Hxin].
      * destruct Hpost. rewrite <- Hid, <- E.
        now apply (list_elem_of_fmap_2 m_studentId).
      * exact (proj1 (Forall_forall _ _) HSpost x Hx Hxin).
  - intros Hall.
    destruct (after_response_status "approved" now team pre m post)
      as [[H _]|[_ H]]; [exact H|].
    destruct H. split; [|exact Hall].
    eapply Forall_impl; [exact Hall|]. intros x Hx. rewrite Hx. discriminate.
Qed.

Lemma approvals_activate (tid : string) (order : list (string * Z)) :
  order <> [] ->
  forall (teams : gmap string CompetitionTeam) (team : CompetitionTeam)
         (S : list string),
    teams !! tid = Some team ->
    NoDup (member_ids team) ->
    Forall (fun x => x ∈ member_ids team) (map fst order) ->
    Forall (fun m => m_studentId m ∈ S ->
                     m_status m = TeamMemberStatus.approved) (t_members team) ->
    (forall x, x ∈ member_ids team -> x ∈ map fst order \/ x ∈ S) ->
    exists team',
      serveAll (map (fun r => ReqRespond "approved" (fst r) tid (snd r)) order) teams
        !! tid = Some team' /\
      member_ids team' = member_ids team /\
      Forall (fun m => m_status m = TeamMemberStatus.approved) (t_members team') /\
      t_status team' = TeamStatus.active.
Proof.
  induction order as [|[id now] order IH]; [contradiction|].
  intros _ teams team S Ht Hnd Hord HS Hcover.
  cbn [map fst snd] in *. apply Forall_cons in Hord as [Hid Hord].
  destruct (respond_approved_step id tid now teams team Ht Hnd Hid)
    as (team1 & H1 & Hids & Hstep & Hact).
  specialize (Hstep S HS).
  destruct order as [|r order].
  - exists team1. cbn. split; [exact H1|]. split; [exact Hids|].
    assert (Hall : Forall (fun m => m_status m = TeamMemberStatus.approved)
                     (t_members team1)).
    { apply Forall_forall. intros x Hx.
      apply (proj1 (Forall_forall _ _) Hstep x Hx).
      assert (Hxid : m_studentId x ∈ member_ids team).
      { rewrite <- Hids. now apply (list_elem_of_fmap_2 m_studentId). }
      destruct (Hcover _ Hxid) as [H|H].
      - apply elem_of_cons in H as [->|H]; [apply list_elem_of_here|].
        now apply elem_of_nil in H.
      - now apply list_elem_of_further. }
    split; [exact Hall | now apply Hact].
  - destruct (IH ltac:(discriminate) (serve (ReqRespond "approved" id tid now) teams)
                team1 (id :: S) H1) as (team' & H' & Hids' & Hall & Hactive).
    + now rewrite Hids.
    + now rewrite Hids.
    + exact Hstep.
    + intros x Hx. rewrite Hids in Hx.
      destruct (Hcover x Hx) as [H|H].
      * apply elem_of_cons in H as [->|H]; [right; apply list_elem_of_here | now left].
      * right. now apply list_elem_of_further.
    + exists team'. split; [exact H'|]. split; [congruence|]. now split.
Qed.

(** X26.  All invitees approving activates the team: when a team is
    created with distinct invitee ids that all resolve, and every invitee
    then answers [approved] (in any order, possibly more than once), the
    team ends with every member approved and status [active]. *)
Theorem X26_all_invitees_approving_activates (students : gmap string Student)
    (newId name : string) (ids : list string) (leaderId : string)
    (teams : gmap string CompetitionTeam) (leader : Student)
    (order : list (string * Z)) :
  students !! leaderId = Some leader ->
  CompetitionTeam_existsName name teams = false ->
  teams !! newId = None ->
  ids <> [] ->
  NoDup ids ->
  Forall (fun id => is_Some (students !! id)) ids ->
  Forall (fun x => x ∈ ids) (map fst order) ->
  Forall (fun id => id ∈ map fst order) ids ->
  exists team : CompetitionTeam,
    serveAll (map (fun r => ReqRespond "approved" (fst r) newId (snd r)) order)
      (snd (createTeam students newId name (Some ids) leaderId teams))
      !! newId = Some team /\
    member_ids team = ids /\
    Forall (fun m => m_status m = TeamMemberStatus.approved) (t_members team) /\
    t_status team = TeamStatus.active.
Proof.
  intros Hl Hn Hfree Hne Hnd Hres Hord Hcover.
  rewrite (createTeam_Ok _ _ _ _ _ _ leader Hl Hn Hfree). cbv zeta. cbn [snd].
  set (team0 := mkTeam _ _ _ _ _ _).
  assert (Hids : member_ids team0 = ids).
  { unfold member_ids, team0. cbn [t_members]. rewrite invited_ids.
    change (default [] (Some ids)) with ids.
    clear -Hres. induction Hres as [|id ids Hid _ IH]; [reflexivity|].
    rewrite filter_cons. destruct (decide (is_Some (students !! id))); [|contradiction].
    now rewrite IH. }
  assert (Horder : order <> []).
  { intros ->. destruct ids as [|id ids]; [contradiction|].
    apply Forall_cons in Hcover as [H _]. now apply elem_of_nil in H. }
  destruct (approvals_activate newId order Horder (<[newId := team0]> teams) team0 [])
    as (team' & H' & Hids' & Hall & Hact).
  - apply lookup_insert_eq.
  - now rewrite Hids.
  - now rewrite Hids.
  - apply Forall_forall. intros m _ H. now apply elem_of_nil in H.
  - intros x Hx. left. rewrite Hids in Hx.
    exact (proj1 (Forall_forall _ _) Hcover x Hx).
  - exists team'. split; [exact H'|]. split; [congruence|]. now split.
Qed.

(* ================================================================== *)
(** ** The further theorems at the sample data *)
(* ================================================================== *)

Lemma insertBy_perm {A} (le : A -> A -> bool) (x : A) (l : list A) :
  insertBy le x l ≡ₚ x :: l.
Proof.
  induction l as [|y l IH]; [reflexivity|].
  cbn. destruct (le x y); [reflexivity|].
  rewrite IH. apply Permutation_swap.
Qed.

Lemma sortBy_perm {A} (le : A -> A -> bool) (l : list A) : sortBy le l ≡ₚ l.
Proof.
  induction l as [|x l IH]; [reflexivity|].
  cbn. rewrite insertBy_perm. now rewrite IH.
Qed.

Lemma demo_question2_valid : valid_question demo_question2.
Proof.
  unfold valid_question, demo_question2. cbn.
  repeat split; try (exists 30%Z; reflexivity); try (exists 5%Z; reflexivity);
    discriminate.
Defined.

Lemma demo_quiz2_valid : Forall valid_question (quiz_questions demo_quiz2).
Proof.
  apply Forall_cons. split; [exact demo_question_valid|].
  apply Forall_cons. split; [exact demo_question2_valid | constructor].
Defined.

Lemma X1_witness :
  exists r : QuestionResponse,
    scoreResponse (questionMap_of [demo_question]) (mkResponseInput "q1" 0 7%Q) = Ok r /\
    (0 <= qr_marksAwarded r)%Q /\ (qr_marksAwarded r <= 10)%Q.
Proof.
  eexists. split; [reflexivity|].
  destruct (X1_marks_within_question (questionMap_of [demo_question])
              (mkResponseInput "q1" 0 7%Q) demo_question _
              eq_refl demo_question_valid ltac:(discriminate) eq_refl)
    as (H0 & H1 & _).
  split; [exact H0 | exact H1].
Defined.

Lemma X2_witness :
  exists s1 s2 : QuestionResponse,
    scoreResponse (questionMap_of [demo_question]) (mkResponseInput "q1" 0 3%Q) = Ok s1 /\
    scoreResponse (questionMap_of [demo_question]) (mkResponseInput "q1" 0 12%Q) = Ok s2 /\
    (qr_marksAwarded s2 <= qr_marksAwarded s1)%Q.
Proof.
  do 2 eexists. split; [reflexivity|]. split; [reflexivity|].
  exact (X2_faster_not_worse (questionMap_of [demo_question])
           (mkResponseInput "q1" 0 3%Q) (mkResponseInput "q1" 0 12%Q)
           demo_question _ _ eq_refl eq_refl ltac:(discriminate)
           eq_refl eq_refl ltac:(discriminate) eq_refl eq_refl).
Defined.

Lemma X3_witness :
  match fst (submitQuizAttempt "z3" "Cy"
               (Some [mkResponseInput "q2" 1 12%Q; mkResponseInput "q1" 2 3%Q]) 0
               demo_quiz_db2) with
  | Ok a => (at_totalMarks a <= at_maxMarks a)%Q /\ (at_percentage a <= 100)%Q
  | Throw _ => False
  end.
Proof.
  destruct (submitQuizAttempt "z3" "Cy"
              (Some [mkResponseInput "q2" 1 12%Q; mkResponseInput "q1" 2 3%Q]) 0
              demo_quiz_db2) as [[a|e] db'] eqn:H; cbn [fst].
  - edestruct (X3_total_within_max "z3" "Cy"
                 [mkResponseInput "q2" 1 12%Q; mkResponseInput "q1" 2 3%Q] 0
                 demo_quiz_db2 db' demo_quiz2 a) as (_ & H1 & _ & H2).
    + reflexivity.
    + exact demo_quiz2_valid.
    + cbn. repeat constructor.
      * intros Hin. apply elem_of_cons in Hin as [Hin|Hin]; [discriminate|].
        now apply elem_of_nil in Hin.
      * apply not_elem_of_nil.
    + repeat constructor; discriminate.
    + exact H.
    + split; [exact H1 | exact H2].
  - vm_compute in H. discriminate H.
Defined.

Lemma X4_witness :
  exists a : QuizAttempt,
    submitQuizAttempt "z3" "Cy"
      (Some [mkResponseInput "q1" 0 0%Q; mkResponseInput "q2" 1 0%Q]) 0 demo_quiz_db2
      = (Ok a, mkQuizDb (quizzes demo_quiz_db2) (attempts demo_quiz_db2 ++ [a])) /\
    (at_totalMarks a == at_maxMarks a)%Q /\ (at_percentage a == 100)%Q.
Proof.
  edestruct (X4_perfect_attempt "z3" "Cy"
               [mkResponseInput "q1" 0 0%Q; mkResponseInput "q2" 1 0%Q] 0
               demo_quiz_db2 demo_quiz2) as (a & Ha & _ & H1 & H2).
  - reflexivity.
  - reflexivity.
  - discriminate.
  - exact demo_quiz2_valid.
  - cbn. repeat constructor.
    + intros H. apply elem_of_cons in H as [H|H]; [discriminate|].
      now apply elem_of_nil in H.
    + apply not_elem_of_nil.
  - repeat constructor.
  - exists a. split; [exact Ha|]. split; [exact H1 | exact H2].
Defined.

Lemma X6_witness :
  Quiz_findById "z9" demo_quiz_db2 = None /\
  submitQuizAttempt "z9" "Cy" (Some demo_responses2) 0 demo_quiz_db2
    = (Throw (mkAppError "Quiz not found" 404), demo_quiz_db2) /\
  submitQuizAttempt "z3" "Cy" None 0 demo_quiz_db2
    = (Throw (mkAppError "Responses are required" 400), demo_quiz_db2).
Proof.
  split; [reflexivity|].
  destruct (X6_submit_edge_cases "z9" "Cy" 0 demo_quiz_db2) as [H _].
  destruct (X6_submit_edge_cases "z3" "Cy" 0 demo_quiz_db2) as [_ H'].
  split; [exact (H eq_refl _)|].
  exact (proj1 (H' demo_quiz2 eq_refl eq_refl)).
Defined.

Lemma X7_witness :
  Quiz_findById "z3" demo_quiz_db2 = Some demo_quiz2 /\
  match fst (submitQuizAttempt "z3" "Cy" (Some demo_responses2) 0 demo_quiz_db2) with
  | Ok a => (at_maxMarks a == Quiz_totalMarks demo_quiz2)%Q
  | Throw _ => False
  end.
Proof.
  split; [reflexivity|].
  destruct (submitQuizAttempt "z3" "Cy" (Some demo_responses2) 0 demo_quiz_db2)
    as [[a|e] db'] eqn:H; cbn [fst].
  - exact (X7_maxMarks_is_quiz_totalMarks "z3" "Cy" (Some demo_responses2) 0
             demo_quiz_db2 db' demo_quiz2 a eq_refl H).
  - vm_compute in H. discriminate H.
Defined.

Lemma X8_witness :
  Quiz_findById "z1" demo_quiz_db2 = Some demo_quiz /\
  snd (toggleVisibility "z1" None (snd (toggleVisibility "z1" None demo_quiz_db2)))
    = demo_quiz_db2.
Proof.
  split; [reflexivity|].
  exact (proj2 (X8_toggleVisibility_flips_flag_only "z1" demo_quiz_db2 demo_quiz
                  eq_refl)).
Defined.

Lemma X9_witness :
  Quiz_findById "z3" demo_quiz_db2 = Some demo_quiz2 /\
  submitQuizAttempt "z3" "Cy" (Some demo_responses2) 0
    (snd (toggleVisibility "z3" (Some false) demo_quiz_db2))
    = (Throw (mkAppError "This quiz is not available" 403),
       snd (toggleVisibility "z3" (Some false) demo_quiz_db2)).
Proof.
  split; [reflexivity|].
  exact (proj1 (X9_visibility_gates_attempts "z3" "Cy" 0 demo_quiz_db2 demo_quiz2
                  eq_refl) (Some demo_responses2)).
Defined.

Lemma X10_witness :
  Quiz_findById "z3" demo_quiz_db2 = Some demo_quiz2 /\
  exists db' : QuizDb,
    deleteQuiz "z3" demo_quiz_db2 = (Ok tt, db') /\
    Forall (fun a => at_quizId a <> "z3") (attempts db') /\
    getQuizById "z3" db' = (Throw (mkAppError "Quiz not found" 404), db').
Proof.
  split; [reflexivity|].
  destruct (X10_deleteQuiz_cascades "z3" demo_quiz_db2 demo_quiz2 eq_refl)
    as (db' & Hd & Hall & _ & _ & _ & Hg & _).
  exists db'. auto.
Defined.

Lemma X11_witness :
  Quiz_findById "z9" demo_quiz_db2 = None /\
  deleteQuiz "z9" demo_quiz_db2
    = (Throw (mkAppError "Quiz not found" 404), demo_quiz_db2).
Proof.
  split; [reflexivity|].
  exact (X11_deleteQuiz_missing "z9" demo_quiz_db2 eq_refl).
Defined.

Lemma X12_witness :
  (1 <= 2)%Z /\
  pagesOf 5 2 = 3%Z /\
  allPages 2 3 ["a"; "b"; "c"; "d"; "e"] = ["a"; "b"; "c"; "d"; "e"].
Proof.
  split; [lia|]. split; [reflexivity|].
  destruct (X12_pages_cover_the_result 2 ["a"; "b"; "c"; "d"; "e"] ltac:(lia))
    as (_ & _ & _ & H & _).
  exact H.
Defined.

Lemma X14_witness :
  (forall field order docs, demo_sortQuizzes field order docs ≡ₚ docs) /\
  exists (listed : list ListedQuiz) (pg : Pagination),
    getAllQuizzes demo_searchMatches demo_sortQuizzes demo_query demo_quiz_db2
      = (Ok (listed, pg), demo_quiz_db2) /\
    pg_total pg = 2%Z /\
    Forall (fun l => l_isVisible l = true) listed.
Proof.
  assert (Hperm : forall field order docs, demo_sortQuizzes field order docs ≡ₚ docs)
    by (intros; apply sortBy_perm).
  split; [exact Hperm|].
  destruct (X14_getAllQuizzes_lists_matching_quizzes demo_searchMatches
              demo_sortQuizzes Hperm demo_query demo_quiz_db2
              ltac:(cbn; lia) ltac:(cbn; lia))
    as (listed & pg & Hg & _ & _ & Ht & _ & _ & _ & Hv).
  exists listed, pg. split; [exact Hg|].
  split; [rewrite Ht; vm_compute; reflexivity|].
  apply Hv. discriminate.
Defined.


Lemma X16_witness :
  Quiz_findById "z3" demo_quiz_db2 = Some demo_quiz2 /\
  match submitQuizAttempt "z3" "Cy" (Some demo_responses2) 0 demo_quiz_db2 with
  | (Ok a, db') =>
      exists (l1 l2 : list QuizAttempt) (pg1 pg2 : Pagination),
        getQuizAttempts demo_sortAttempts "z3" None None None demo_quiz_db2
          = (Ok (l1, pg1), demo_quiz_db2) /\
        getQuizAttempts demo_sortAttempts "z3" None None None db'
          = (Ok (l2, pg2), db') /\
        pg_total pg2 = (pg_total pg1 + 1)%Z
  | (Throw _, _) => False
  end.
Proof.
  split; [reflexivity|].
  destruct (submitQuizAttempt "z3" "Cy" (Some demo_responses2) 0 demo_quiz_db2)
    as [[a|e] db'] eqn:H.
  - exact (X16_submit_then_count demo_sortAttempts "z3" "Cy" (Some demo_responses2) 0
             demo_quiz_db2 db' a "z3" demo_quiz2 None None None H eq_refl
             ltac:(cbn; lia) ltac:(cbn; lia)).
  - vm_compute in H. discriminate H.
Defined.

Lemma X18_witness :
  exists team : CompetitionTeam,
    serveAll demo_joined_history ∅ !! "t1" = Some team /\
    approved_have_joined team.
Proof.
  eexists. split; [reflexivity|].
  apply (X18_approved_members_have_joined demo_joined_history "t1").
  reflexivity.
Defined.

Lemma X19_witness :
  exists team team' : CompetitionTeam,
    serveAll demo_history ∅ !! "t1" = Some team /\
    getTeamById "t1"
      (serveAll [ReqDisband "L" "t1"; ReqLeave "a" "t1"] (serveAll demo_history ∅))
      = (Ok team',
         serveAll [ReqDisband "L" "t1"; ReqLeave "a" "t1"] (serveAll demo_history ∅)) /\
    t_name team' = t_name team /\ t_leaderId team' = t_leaderId team.
Proof.
  edestruct (X19_teams_persist [ReqDisband "L" "t1"; ReqLeave "a" "t1"]
               (serveAll demo_history ∅) "t1")
    as (team' & Hg & Hn & Hl & _); [reflexivity|].
  eexists. exists team'. split; [reflexivity|].
  split; [exact Hg|]. split; [exact Hn | exact Hl].
Defined.

Lemma X20_witness :
  exists team : CompetitionTeam,
    serveAll demo_history ∅ !! "t1" = Some team /\
    t_leaderId team <> "a" /\
    respondToInvitation "approved" "a" "t1" 1700000000000
      (snd (leaveTeam "a" "t1" (serveAll demo_history ∅)))
      = (Throw (mkAppError "You are not invited to this team" 400),
         snd (leaveTeam "a" "t1" (serveAll demo_history ∅))).
Proof.
  edestruct (X20_after_leaving "approved" "a" "t1" 1700000000000
               (serveAll demo_history ∅)) as (_ & H & _);
    [reflexivity | | left; reflexivity |].
  - cbn. discriminate.
  - eexists. split; [reflexivity|]. split; [cbn; discriminate | exact H].
Defined.

Lemma X21_witness :
  exists team : CompetitionTeam,
    serveAll demo_history ∅ !! "t1" = Some team /\
    disbandTeam "a" "t1" (serveAll demo_history ∅)
      = (Throw (mkAppError "Only the team leader can disband the team" 403),
         serveAll demo_history ∅).
Proof.
  edestruct (X21_leader_only_operations "t1" (serveAll demo_history ∅))
    as (H & _); [reflexivity|].
  eexists. split; [reflexivity|].
  apply (H "a" "a"). cbn. discriminate.
Defined.

Lemma X22_witness :
  "pending" <> "approved" /\ "pending" <> "rejected" /\
  respondToInvitation "pending" "a" "t1" 1700000000000 (serveAll demo_history ∅)
    = (Throw (mkAppError "Invalid status. Must be approved or rejected" 400),
       serveAll demo_history ∅).
Proof.
  split; [discriminate|]. split; [discriminate|].
  apply X22_invalid_status_refused_first; discriminate.
Defined.

Lemma X23_witness :
  demo_students !! "nobody" = None /\
  createTeam demo_students "t2" "Compilers" None "nobody" (serveAll demo_history ∅)
    = (Throw (mkAppError "Student not found" 404), serveAll demo_history ∅) /\
  createTeam demo_students "t2" "Compilers" None "a" (serveAll demo_history ∅)
    = (Throw (mkAppError "A team with this name already exists" 400),
       serveAll demo_history ∅).
Proof.
  split; [reflexivity|].
  destruct (X23_createTeam_refusals demo_students "t2" "Compilers" None "nobody"
              (serveAll demo_history ∅)) as [H _].
  destruct (X23_createTeam_refusals demo_students "t2" "Compilers" None "a"
              (serveAll demo_history ∅)) as [_ H'].
  split; [exact (H eq_refl)|].
  eapply (H' _ "t1"); reflexivity.
Defined.

Lemma X24_witness :
  constructed (ThrownAppError (new_AppError "Quiz not found" 404 (Some "NOT_FOUND"))) /\
  errorHandler false (ThrownAppError (new_AppError "Quiz not found" 404 (Some "NOT_FOUND")))
    = mkErrorResponse 404 "Quiz not found" (Some "NOT_FOUND") false None.
Proof.
  split; [reflexivity|].
  exact (X24_errorHandler_sends_the_error false
           (ThrownAppError (new_AppError "Quiz not found" 404 (Some "NOT_FOUND")))
           eq_refl).
Defined.

Lemma X25_witness :
  errorHandler false
    (ThrownOther "TypeError" "Cannot read properties of undefined" false
       "none" "none" None [])
    = mkErrorResponse 500 "Cannot read properties of undefined" None false None.
Proof.
  apply (X25_unknown_error_message_is_sent false "TypeError"
           "Cannot read properties of undefined" "none" "none" None []);
    discriminate.
Defined.

Lemma X26_witness :
  exists team : CompetitionTeam,
    serveAll [ReqRespond "approved" "a" "t1" 1700000000000]
      (snd (createTeam demo_students "t1" "Compilers" (Some ["a"]) "L" ∅))
      !! "t1" = Some team /\
    t_status team = TeamStatus.active.
Proof.
  assert (Hname : CompetitionTeam_existsName "Compilers" ∅ = false)
    by (vm_compute; reflexivity).
  destruct (X26_all_invitees_approving_activates demo_students "t1" "Compilers"
              ["a"] "L" ∅ (mkStudent "Lea" "lea@example.org" "EG/2020/0001")
              [("a", 1700000000000%Z)] eq_refl Hname eq_refl)
    as (team & Ht & _ & _ & Hs).
  - discriminate.
  - apply NoDup_cons. split; [apply not_elem_of_nil | apply NoDup_nil_2].
  - apply Forall_cons. split; [eexists; reflexivity | constructor].
  - apply Forall_cons. split; [apply list_elem_of_here | constructor].
  - apply Forall_cons. split; [apply list_elem_of_here | constructor].
  - exists team. split; [exact Ht | exact Hs].
Defined.
